(** * BN-OI-SCAN: the sampling-and-detection loop of [main.py]

    A shallow embedding of the monitoring loop: the fetchers that turn an
    HTTP answer into a Python value (symbol universe, prices, funding
    rates, open interest), the bounded open-interest fan-out, the
    start-snapshot rows and the history file they are appended to, the
    anomaly detector, the alert dispatcher and the iterations of the
    [while True] loop with its catch-all handler.

    Python floats are IEEE binary64 and are embedded as Rocq's primitive
    floats, so every comparison and every rounding of the source is the one
    the embedding computes.  Python dicts keyed by symbol are [gmap string];
    an exception is a value of [result]; the effects of one loop iteration
    (CSV write, sleeps, webhook post, log lines) are collected in a trace. *)

From Stdlib Require Import PrimFloat FloatOps FloatAxioms SpecFloat ZArith.
From stdpp Require Import gmap strings list pretty.

Set Warnings "-inexact-float,-register-all".

(** ** Exceptions and the error monad *)

Inductive exn :=
  | ZeroDivisionError | AttributeError | KeyError | TypeError | ValueError
  | ConnectionError | JSONDecodeError | OSError | ClientError.

Inductive result (A : Type) :=
  | Ok (a : A)
  | Raise (e : exn).
Arguments Ok {A} a.
Arguments Raise {A} e.

#[global] Instance result_ret : MRet result := λ A a, Ok a.
#[global] Instance result_bind : MBind result := λ A B f m,
  match m with Ok a => f a | Raise e => Raise e end.

(** [try: return body / except: return handler] with a bare [except]. *)
Definition try_except {A} (body : result A) (handler : A) : A :=
  match body with Ok a => a | Raise _ => handler end.

(** ** Python floats *)

(** [bool(x)] of a float: false exactly for [0.0] and [-0.0]; [nan] is true. *)
Definition float_truthy (x : float) : bool := negb (PrimFloat.eqb x 0%float).

(** [bool(v)] of a value that is a float or [None]. *)
Definition truthy (v : option float) : bool :=
  match v with None => false | Some x => float_truthy x end.

(** [a / b] on floats: [ZeroDivisionError] when the divisor compares equal
    to zero (both signs), the IEEE quotient otherwise. *)
Definition py_div (a b : float) : result float :=
  if PrimFloat.eqb b 0%float then Raise ZeroDivisionError else Ok (a / b)%float.

(** ** Configuration constants *)

Definition CHECK_INTERVAL : Z := 45.
Definition OI_THRESHOLD : float := 5%float.
Definition PRICE_THRESHOLD : float := 1.2%float.

(** ** Decoded JSON and HTTP answers *)

(** A decoded JSON document.  A number is carried as the binary64 that
    [float()] gives for it; an object keeps its members in document order
    and the last duplicate of a key wins, as in [json.loads]. *)
Inductive json :=
  | JNull
  | JBool (b : bool)
  | JNum (x : float)
  | JStr (s : string)
  | JArr (xs : list json)
  | JObj (kvs : list (string * json)).

(** What the exchange answers to one GET: the transport fails, or a status
    line comes back with a body that decodes as JSON or does not. *)
Inductive http_response :=
  | NetworkError
  | Response (status : Z) (body : option json).

Fixpoint assoc_last (k : string) (kvs : list (string * json)) : option json :=
  match kvs with
  | [] => None
  | (k', v) :: rest =>
      match assoc_last k rest with
      | Some w => Some w
      | None => if decide (k' = k) then Some v else None
      end
  end.

(** [item[key]] with a string key. *)
Definition subscript (item : json) (key : string) : result json :=
  match item with
  | JObj kvs => match assoc_last key kvs with Some v => Ok v | None => Raise KeyError end
  | _ => Raise TypeError
  end.

Fixpoint is_infix (p s : string) : bool :=
  String.prefix p s ||
  match s with EmptyString => false | String _ s' => is_infix p s' end.

Definition is_jstr (key : string) (j : json) : bool :=
  match j with JStr s => bool_decide (s = key) | _ => false end.

(** [key in item] with a string key: member test on an object, substring
    test on a string, element test on an array, [TypeError] elsewhere. *)
Definition py_in (key : string) (item : json) : result bool :=
  match item with
  | JObj kvs => Ok (bool_decide (is_Some (assoc_last key kvs)))
  | JStr s => Ok (is_infix key s)
  | JArr xs => Ok (existsb (is_jstr key) xs)
  | _ => Raise TypeError
  end.

Fixpoint chars (s : string) : list json :=
  match s with
  | EmptyString => []
  | String c s' => JStr (String c EmptyString) :: chars s'
  end.

(** [for item in doc]: the elements of an array, the keys of an object, the
    characters of a string.  (Repeated keys of an object are not merged
    here: every key is a string item and is treated alike by the loops
    below.) *)
Definition py_iter (doc : json) : result (list json) :=
  match doc with
  | JArr xs => Ok xs
  | JObj kvs => Ok (map (λ kv, JStr kv.1) kvs)
  | JStr s => Ok (chars s)
  | _ => Raise TypeError
  end.

Section Fetchers.

(** Python's parser of float literals, [float("0.0123")]: [None] stands
    for [ValueError]. *)
Variable float_of_str : string → option float.

(** [float(v)] on a decoded JSON value. *)
Definition py_float (v : json) : result float :=
  match v with
  | JNum x => Ok x
  | JStr s => match float_of_str s with Some x => Ok x | None => Raise ValueError end
  | JBool b => Ok (if b then 1%float else 0%float)
  | _ => Raise TypeError
  end.

(** [requests.get(url)]: raises when the transport fails. *)
Definition requests_get (r : http_response) : result (Z * option json) :=
  match r with
  | NetworkError => Raise ConnectionError
  | Response st body => Ok (st, body)
  end.

(** [response.json()]. *)
Definition response_json (body : option json) : result json :=
  match body with Some j => Ok j | None => Raise JSONDecodeError end.

(** One step of a dict comprehension [{item[kf]: float(item[vf]) ...}]:
    the key is evaluated first, then the value, then the entry is stored
    (a later item overwrites an earlier one).  The mapping of the
    embedding is the dict restricted to its string keys: a key of
    another hashable type is stored by Python under a key that no symbol
    lookup reaches, and a list or object as key is unhashable. *)
Definition store_entry (kf vf : string) (item : json)
    (acc : gmap string float) : result (gmap string float) :=
  k ← subscript item kf;
  x ← subscript item vf ≫= py_float;
  match k with
  | JStr s => Ok (<[s := x]> acc)
  | JArr _ | JObj _ => Raise TypeError
  | _ => Ok acc
  end.

Fixpoint price_entries (items : list json) (acc : gmap string float)
    : result (gmap string float) :=
  match items with
  | [] => Ok acc
  | item :: rest => store_entry "symbol" "price" item acc ≫= price_entries rest
  end.

(** [get_all_prices]: the status line is not looked at. *)
Definition get_all_prices (r : http_response) : gmap string float :=
  try_except
    ('(_, body) ← requests_get r;
     doc ← response_json body;
     items ← py_iter doc;
     price_entries items ∅)
    ∅.

Fixpoint funding_entries (items : list json) (acc : gmap string float)
    : result (gmap string float) :=
  match items with
  | [] => Ok acc
  | item :: rest =>
      has ← py_in "lastFundingRate" item;
      (if has : bool then store_entry "symbol" "lastFundingRate" item acc else Ok acc)
        ≫= funding_entries rest
  end.

(** [get_funding_rates]: [Some m] is a dict, [None] is Python's [None],
    which is what the function returns when it runs off its end. *)
Definition get_funding_rates (r : http_response) : option (gmap string float) :=
  try_except
    ('(st, body) ← requests_get r;
     if bool_decide (st = 200%Z) then
       doc ← response_json body;
       items ← py_iter doc;
       m ← funding_entries items ∅;
       Ok (Some m)
     else Ok None)
    (Some ∅).

(** [fetch_open_interest], the part inside [async with semaphore]. *)
Definition fetch_open_interest (symbol : string) (r : http_response)
    : string * option float :=
  try_except
    ('(st, body) ← requests_get r;
     if bool_decide (st = 200%Z) then
       data ← response_json body;
       x ← subscript data "openInterest" ≫= py_float;
       Ok (symbol, Some x)
     else Ok (symbol, None))
    (symbol, None).

End Fetchers.

(** [dict(pairs)]: later pairs overwrite earlier ones. *)
Definition py_dict {V} (pairs : list (string * V)) : gmap string V :=
  fold_left (λ m kv, <[kv.1 := kv.2]> m) pairs ∅.

(** [d.get(s)] on a dict whose values are floats or [None]: [None] for a
    missing key and for a stored [None] alike. *)
Definition dict_get (d : gmap string (option float)) (s : string) : option float :=
  d !! s ≫= id.

(** [funding_rates.get(s, 0)]; [funding_rates] may be [None], which has no
    attribute [get]. *)
Definition funding_get (funding_rates : option (gmap string float)) (s : string)
    : result float :=
  match funding_rates with
  | None => Raise AttributeError
  | Some m => Ok (default 0%float (m !! s))
  end.

(** ** The bounded open-interest collector *)

Module Collector.

(** A task of the fan-out is waiting at [async with semaphore], holds a
    permit with its request outstanding, or has returned its pair. *)
Inductive task_state :=
  | Waiting
  | InFlight
  | Resolved (res : string * option float).

Definition in_flight (t : string * task_state) : bool :=
  match t.2 with InFlight => true | _ => false end.

Definition is_waiting (t : string * task_state) : bool :=
  match t.2 with Waiting => true | _ => false end.

Record pool := Pool {
  sem_value : nat;                       (* the semaphore's counter *)
  tasks : list (string * task_state)     (* one task per symbol, in order *)
}.

(** [semaphore = asyncio.Semaphore(15)]; one task per symbol. *)
Definition gather_start (symbols : list string) : pool :=
  Pool 15 (map (λ s, (s, Waiting)) symbols).

(** What the event loop can do next: let task [i] through the semaphore,
    or complete the request of task [i] and leave the [async with]. *)
Inductive action := Acquire (i : nat) | Finish (i : nat).

Section Steps.
Variable float_of_str : string → option float.
Variable oi_env : string → http_response.

Definition step (a : action) (p : pool) : option pool :=
  match a with
  | Acquire i =>
      match tasks p !! i, sem_value p with
      | Some (s, Waiting), S n => Some (Pool n (<[i := (s, InFlight)]> (tasks p)))
      | _, _ => None
      end
  | Finish i =>
      match tasks p !! i with
      | Some (s, InFlight) =>
          Some (Pool (S (sem_value p))
                  (<[i := (s, Resolved (fetch_open_interest float_of_str s (oi_env s)))]>
                     (tasks p)))
      | _ => None
      end
  end.

Fixpoint run (sched : list action) (p : pool) : option pool :=
  match sched with
  | [] => Some p
  | a :: rest => step a p ≫= run rest
  end.

Definition reachable (symbols : list string) (p : pool) : Prop :=
  ∃ sched, run sched (gather_start symbols) = Some p.
End Steps.

(** Requests outstanding in a state. *)
Definition outstanding (p : pool) : nat :=
  length (List.filter in_flight (tasks p)).

Definition waiting (p : pool) : nat :=
  length (List.filter is_waiting (tasks p)).

Definition result_of (t : string * task_state) : option (string * option float) :=
  match t.2 with Resolved res => Some res | _ => None end.

(** [await asyncio.gather] over the tasks: has a value only once every
    task has returned, and lists the pairs in task order. *)
Definition gather (p : pool) : option (list (string * option float)) :=
  mapM result_of (tasks p).

End Collector.

(** [get_all_open_interest]: the dict of the gathered pairs. *)
Definition get_all_open_interest (float_of_str : string → option float)
    (symbols : list string) (oi_env : string → http_response)
    : gmap string (option float) :=
  py_dict (map (λ s, fetch_open_interest float_of_str s (oi_env s)) symbols).

(** ** History rows, alert records, effects *)

Record row := Row {
  row_symbol : string;
  row_price : float;
  row_oi : float;
  row_funding : float;
  row_phase : string
}.

(** flat is the label of the [else] branch. *)
Inductive direction :=
  | bullish_accumulation     (* "📈 資金建多" *)
  | bearish_accumulation     (* "📉 資金建空" *)
  | flat_accumulation.       (* "🔄 橫盤吸籌" *)

(** One element of [embeds].  The title carries the symbol; the three
    numeric fields are kept as the floats that the source renders with
    [:.2f] and [:.4f]. *)
Record embed := Embed {
  title : string;
  color : Z;
  embed_direction : direction;
  embed_oi_chg : float;
  embed_prc_chg : float;
  embed_funding : float
}.

Inductive event :=
  | SaveCsv (data : list row) (timestamp : string)
  | Sleep (seconds : Z)
  | Post (url : option string) (embeds : list embed)
  | LogInfo (found : nat)
  | LogError (e : exn).

(** Effects of the loop body: a trace of events and a value or an
    exception. *)
Record M (A : Type) := Run { trace : list event; outcome : result A }.
Arguments Run {A} trace outcome.
Arguments trace {A} m.
Arguments outcome {A} m.

#[global] Instance M_ret : MRet M := λ A a, Run [] (Ok a).
#[global] Instance M_bind : MBind M := λ A B f m,
  match outcome m with
  | Ok a => Run (trace m ++ trace (f a)) (outcome (f a))
  | Raise e => Run (trace m) (Raise e)
  end.

Definition emit (ev : event) : M unit := Run [ev] (Ok tt).
Definition lift {A} (r : result A) : M A := Run [] r.

(** ** The start-snapshot rows *)

(** The list comprehension [data_start]: one dict per symbol [s] of the
    universe with [s in prev_prices and prev_oi.get(s)]. *)
Fixpoint data_start (symbols : list string) (prev_prices : gmap string float)
    (prev_oi : gmap string (option float))
    (funding_rates : option (gmap string float)) : result (list row) :=
  match symbols with
  | [] => Ok []
  | s :: rest =>
      match prev_prices !! s, dict_get prev_oi s with
      | Some price, Some oi =>
          if float_truthy oi then
            f ← funding_get funding_rates s;
            rows ← data_start rest prev_prices prev_oi funding_rates;
            Ok (Row s price oi f "start" :: rows)
          else data_start rest prev_prices prev_oi funding_rates
      | _, _ => data_start rest prev_prices prev_oi funding_rates
      end
  end.

(** ** The anomaly detector *)

Definition direction_of (prc_chg : float) : direction :=
  if (0.3 <? prc_chg)%float then bullish_accumulation
  else if (prc_chg <? -0.3)%float then bearish_accumulation
  else flat_accumulation.

Definition color_of (prc_chg : float) : Z :=
  if (0.3 <? prc_chg)%float then 0x00FF00
  else if (prc_chg <? -0.3)%float then 0xFF0000
  else 0xFFFF00.

(** [(curr - prev) / prev * 100] as IEEE arithmetic alone, without the
    exception of Python's division. *)
Definition change_pct (prev curr : float) : float := ((curr - prev) / prev * 100)%float.

Section Detector.
Variables prev_prices curr_prices : gmap string float.
Variables prev_oi curr_oi : gmap string (option float).
Variable funding_rates : option (gmap string float).

(** The body of [for s in symbols]: [embeds] before, [embeds] after, or
    the exception that leaves the loop. *)
Definition detect_symbol (embeds : list embed) (s : string) : result (list embed) :=
  match prev_prices !! s, curr_prices !! s, dict_get prev_oi s, dict_get curr_oi s with
  | Some prev_p, Some curr_p, Some prev_o, Some curr_o =>
      if float_truthy prev_o && float_truthy curr_o then
        q_oi ← py_div (curr_o - prev_o)%float prev_o;
        let oi_chg := (q_oi * 100)%float in
        q_prc ← py_div (curr_p - prev_p)%float prev_p;
        let prc_chg := (q_prc * 100)%float in
        funding ← funding_get funding_rates s;
        if (OI_THRESHOLD <? oi_chg)%float && (abs prc_chg <? PRICE_THRESHOLD)%float then
          Ok (embeds ++ [Embed s (color_of prc_chg) (direction_of prc_chg)
                           oi_chg prc_chg funding])
        else Ok embeds
      else Ok embeds                                     (* continue *)
  | _, _, _, _ => Ok embeds                              (* continue *)
  end.

Fixpoint detect_from (symbols : list string) (embeds : list embed)
    : result (list embed) :=
  match symbols with
  | [] => Ok embeds
  | s :: rest => detect_symbol embeds s ≫= detect_from rest
  end.

Definition detect (symbols : list string) : result (list embed) :=
  detect_from symbols [].

(** The test at the head of the loop body, as a proposition: [s] has a
    price in both price dicts and a true open interest in both
    open-interest dicts. *)
Definition passes_check (s : string) : Prop :=
  is_Some (prev_prices !! s) ∧ is_Some (curr_prices !! s) ∧
  truthy (dict_get prev_oi s) = true ∧ truthy (dict_get curr_oi s) = true.

(** Non-absent price and open interest in both snapshots. *)
Definition present_in_both (s : string) : Prop :=
  is_Some (prev_prices !! s) ∧ is_Some (curr_prices !! s) ∧
  is_Some (dict_get prev_oi s) ∧ is_Some (dict_get curr_oi s).
End Detector.

(** A record for [s] is among the embeds. *)
Definition emitted (embeds : list embed) (s : string) : Prop :=
  ∃ r, r ∈ embeds ∧ title r = s.

(** ** The alert dispatcher *)

(** [if embeds: ... await session.post(URL, json={"embeds": embeds[:10]})].
    The [Post] event is the call; [post_ok = false] is a call that raises. *)
Definition dispatch (url : option string) (post_ok : bool) (embeds : list embed)
    : M unit :=
  match embeds with
  | [] => mret tt
  | _ :: _ =>
      emit (Post url (take 10 embeds));;
      if post_ok then mret tt else lift (Raise ClientError)
  end.

(** ** One iteration of the scheduler loop *)

(** What the outside world contributes to one iteration.  Within one
    fan-out the answer to an open-interest request is taken to be a
    function of the symbol asked for. *)
Record env := Env {
  universe : list string;             (* the list returned by get_all_symbols() *)
  prices_start : http_response;
  oi_start : string → http_response;
  funding : http_response;
  now : string;                       (* datetime.now(TAIWAN_TZ).strftime(...) *)
  csv_ok : bool;                      (* the CSV write goes through *)
  prices_end : http_response;
  oi_end : string → http_response;
  webhook_url : option string;        (* DISCORD_WEBHOOK_URL, from os.getenv *)
  post_ok : bool                      (* the webhook call goes through *)
}.

(** [save_to_csv]: the event is a completed append of the rows, each
    stamped with [timestamp]. *)
Definition save_to_csv (ok : bool) (data : list row) (timestamp : string) : M unit :=
  if ok then emit (SaveCsv data timestamp) else lift (Raise OSError).

Section Cycle.
Variable float_of_str : string → option float.

(** The body of [try:] in [main]; its value is [len(embeds)]. *)
Definition cycle_body (e : env) : M nat :=
  let symbols := universe e in
  let prev_prices := get_all_prices float_of_str (prices_start e) in
  let prev_oi := get_all_open_interest float_of_str symbols (oi_start e) in
  let funding_rates := get_funding_rates float_of_str (funding e) in
  let start_time := now e in
  rows ← lift (data_start symbols prev_prices prev_oi funding_rates);
  save_to_csv (csv_ok e) rows start_time;;
  emit (Sleep CHECK_INTERVAL);;
  let curr_prices := get_all_prices float_of_str (prices_end e) in
  let curr_oi := get_all_open_interest float_of_str symbols (oi_end e) in
  embeds ← lift (detect prev_prices curr_prices prev_oi curr_oi funding_rates symbols);
  dispatch (webhook_url e) (post_ok e) embeds;;
  emit (LogInfo (length embeds));;
  mret (length embeds).

(** One turn of [while True]: the body, and on any exception the handler
    that logs it and sleeps ten seconds. *)
Definition main_iteration (e : env) : list event :=
  match outcome (cycle_body e) with
  | Ok _ => trace (cycle_body e)
  | Raise ex => trace (cycle_body e) ++ [LogError ex; Sleep 10]
  end.

(** The events of the first iterations of [main], one [env] each. *)
Definition main (cycles : list env) : list event :=
  concat (map main_iteration cycles).
End Cycle.

Definition is_post (ev : event) : bool :=
  match ev with Post _ _ => true | _ => false end.

Definition is_save (ev : event) : bool :=
  match ev with SaveCsv _ _ => true | _ => false end.

Definition is_log_info (ev : event) : bool :=
  match ev with LogInfo _ => true | _ => false end.

(** ** Closed forms used to state the properties *)

(** The record the detector holds for [s] when [s] passes the check of
    the loop head and both thresholds, written with IEEE arithmetic only. *)
Definition anomaly_of (prev_prices curr_prices : gmap string float)
    (prev_oi curr_oi : gmap string (option float))
    (funding_rates : option (gmap string float)) (s : string) : option embed :=
  match prev_prices !! s, curr_prices !! s, dict_get prev_oi s, dict_get curr_oi s with
  | Some prev_p, Some curr_p, Some prev_o, Some curr_o =>
      let oi_chg := change_pct prev_o curr_o in
      let prc_chg := change_pct prev_p curr_p in
      if float_truthy prev_o && float_truthy curr_o
         && (OI_THRESHOLD <? oi_chg)%float && (abs prc_chg <? PRICE_THRESHOLD)%float
      then Some (Embed s (color_of prc_chg) (direction_of prc_chg) oi_chg prc_chg
                   (default 0%float (funding_rates ≫= (.!! s))))
      else None
  | _, _, _, _ => None
  end.

(** The history row of [s] at the start snapshot, if it gets one. *)
Definition start_row_of (prev_prices : gmap string float)
    (prev_oi : gmap string (option float)) (fr : gmap string float)
    (s : string) : option row :=
  match prev_prices !! s, dict_get prev_oi s with
  | Some price, Some oi =>
      if float_truthy oi then Some (Row s price oi (default 0%float (fr !! s)) "start")
      else None
  | _, _ => None
  end.

(** The ways one open-interest request fails. *)
Definition oi_fetch_failed (float_of_str : string → option float)
    (r : http_response) : Prop :=
  match r with
  | NetworkError => True
  | Response st body =>
      st ≠ 200%Z ∨ body = None ∨
      ∃ doc e, body = Some doc ∧
               subscript doc "openInterest" ≫= py_float float_of_str = Raise e
  end.

(** The four dicts and the funding rates of an iteration. *)
Definition prev_prices_of (float_of_str : string → option float) (e : env) :=
  get_all_prices float_of_str (prices_start e).
Definition curr_prices_of (float_of_str : string → option float) (e : env) :=
  get_all_prices float_of_str (prices_end e).
Definition prev_oi_of (float_of_str : string → option float) (e : env) :=
  get_all_open_interest float_of_str (universe e) (oi_start e).
Definition curr_oi_of (float_of_str : string → option float) (e : env) :=
  get_all_open_interest float_of_str (universe e) (oi_end e).
Definition funding_rates_of (float_of_str : string → option float) (e : env) :=
  get_funding_rates float_of_str (funding e).

(** The semaphore's counter and the requests in flight always add up to
    the fifteen permits. *)
Definition permits_accounted (p : Collector.pool) : Prop :=
  Collector.sem_value p + Collector.outstanding p = 15.

(** The tasks stay paired with the symbols, and a resolved task holds the
    pair that its own request produced. *)
Definition tasks_follow (float_of_str : string → option float)
    (oi_env : string → http_response) (symbols : list string) (p : Collector.pool)
    : Prop :=
  Forall2 (λ s t, t.1 = s ∧
                  ∀ res, t.2 = Collector.Resolved res →
                         res = fetch_open_interest float_of_str s (oi_env s))
    symbols (Collector.tasks p).

(** ** The symbol universe *)

(** [s.endswith(suffix)]. *)
Fixpoint ends_with (suffix s : string) : bool :=
  String.eqb s suffix ||
  match s with EmptyString => false | String _ s' => ends_with suffix s' end.

Section Universe.
(** Two library functions that depend on the Unicode tables: [str.upper]
    and whether [re.search] finds a run of six [\d] in a string. *)
Variable upper : string → string.
Variable has_six_digits : string → bool.

(** The condition and the element of the comprehension in
    [get_all_symbols] for one entry [item]: [Some s] when the entry is kept
    and contributes [s], [None] when the condition is false.  The four
    conjuncts are evaluated left to right and the evaluation stops at the
    first false one. *)
Definition select_symbol (item : json) : result (option string) :=
  status ← subscript item "status";
  if is_jstr "TRADING" status then
    symbol ← subscript item "symbol";
    match symbol with
    | JStr s =>
        if ends_with "USDC" (upper s) then Ok None
        else
          contract ← subscript item "contractType";
          if is_jstr "PERPETUAL" contract then
            if has_six_digits s then Ok None else Ok (Some s)
          else Ok None
    | _ => Raise AttributeError
    end
  else Ok None.

Fixpoint symbol_entries (items : list json) : result (list string) :=
  match items with
  | [] => Ok []
  | item :: rest =>
      kept ← select_symbol item;
      others ← symbol_entries rest;
      Ok (option_list kept ++ others)
  end.

(** [get_all_symbols]: the list it returns, and the exception it logs
    with [logger.error] if there is one.  An answer whose status is not
    200 falls through to [return []] without a log line. *)
Definition get_all_symbols_run (r : http_response) : list string * option exn :=
  match
    '(st, body) ← requests_get r;
    if bool_decide (st = 200%Z) then
      doc ← response_json body;
      entries ← subscript doc "symbols";
      items ← py_iter entries;
      symbols ← symbol_entries items;
      Ok (Some symbols)
    else Ok None
  with
  | Ok (Some symbols) => (symbols, None)
  | Ok None => ([], None)
  | Raise e => ([], Some e)
  end.

Definition get_all_symbols (r : http_response) : list string :=
  (get_all_symbols_run r).1.

(** The entry passes the four tests with symbol [s]. *)
Definition eligible (item : json) (s : string) : Prop :=
  subscript item "status" = Ok (JStr "TRADING") ∧
  subscript item "symbol" = Ok (JStr s) ∧
  ends_with "USDC" (upper s) = false ∧
  subscript item "contractType" = Ok (JStr "PERPETUAL") ∧
  has_six_digits s = false.
End Universe.

(** ** The history file *)

(** A line of [binance_oi_data_history.csv]: the header with its column
    names, or one row with the timestamp column that [save_to_csv] adds.
    The rendering of the cells is left to pandas. *)
Inductive line :=
  | Header (columns : list string)
  | Data (r : row) (timestamp : string).

(** The columns of [df] after [df['timestamp'] = timestamp]: the keys of
    the row dicts followed by the new column; a frame built from an empty
    list has the new column only. *)
Definition columns_of (data : list row) : list string :=
  match data with
  | [] => ["timestamp"]
  | _ :: _ => ["symbol"; "price"; "oi"; "funding"; "phase"; "timestamp"]
  end.

(** [save_to_csv] on the file: [None] is a file that does not exist, and
    the result is the file afterwards. *)
Definition save_to_csv_on (file : option (list line)) (data : list row)
    (timestamp : string) : list line :=
  match file with
  | None => Header (columns_of data) :: map (λ r, Data r timestamp) data
  | Some old => old ++ map (λ r, Data r timestamp) data
  end.

(** The file after the appends of a trace. *)
Definition replay (events : list event) (file : option (list line))
    : option (list line) :=
  fold_left (λ f ev, match ev with
                     | SaveCsv data ts => Some (save_to_csv_on f data ts)
                     | _ => f
                     end) events file.

Definition is_header (l : line) : bool :=
  match l with Header _ => true | Data _ _ => false end.

(** A line is a row of a start snapshot. *)
Definition is_start_row (l : line) : Prop :=
  ∃ r ts, l = Data r ts ∧ row_phase r = "start".

(** ** Well-formed payloads and progress of the fan-out *)

(** The ticker [item] reads as the pair [kv]. *)
Definition reads_as (float_of_str : string → option float) (value_key : string)
    (item : json) (kv : string * float) : Prop :=
  subscript item "symbol" = Ok (JStr kv.1) ∧
  subscript item value_key ≫= py_float float_of_str = Ok kv.2.

(** The funding entry [item] is skipped ([None]) or reads as a pair. *)
Definition funding_reads_as (float_of_str : string → option float) (item : json)
    (o : option (string * float)) : Prop :=
  match o with
  | Some kv => py_in "lastFundingRate" item = Ok true ∧ reads_as float_of_str "lastFundingRate" item kv
  | None => py_in "lastFundingRate" item = Ok false
  end.

(** Steps still to be taken: two for a waiting task, one for a task in
    flight. *)
Definition steps_left (p : Collector.pool) : nat :=
  2 * Collector.waiting p + Collector.outstanding p.

(** ** Concrete inputs *)

(** The figures of the end-to-end scenario, with three more symbols: one
    whose previous price is zero, one whose previous open interest is zero
    and one whose end-of-interval open interest could not be fetched. *)
Module Scenario.
Definition prev_prices : gmap string float :=
  list_to_map [("BTCUSDT", 100%float); ("ETHUSDT", 50%float);
               ("ZEROUSDT", 0%float); ("IDLEUSDT", 2%float); ("GONEUSDT", 7%float)].
Definition curr_prices : gmap string float :=
  list_to_map [("BTCUSDT", 100.5%float); ("ETHUSDT", 55%float);
               ("ZEROUSDT", 1%float); ("IDLEUSDT", 2%float); ("GONEUSDT", 7%float)].
Definition prev_oi : gmap string (option float) :=
  list_to_map [("BTCUSDT", Some 1000%float); ("ETHUSDT", Some 500%float);
               ("ZEROUSDT", Some 10%float); ("IDLEUSDT", Some 0%float);
               ("GONEUSDT", Some 10%float)].
Definition curr_oi : gmap string (option float) :=
  list_to_map [("BTCUSDT", Some 1060%float); ("ETHUSDT", Some 510%float);
               ("ZEROUSDT", Some 10%float); ("IDLEUSDT", Some 900%float);
               ("GONEUSDT", None)].
Definition funding_rates : gmap string float :=
  list_to_map [("BTCUSDT", 0.0001%float)].
Definition btc : embed :=
  Embed "BTCUSDT" 0x00FF00 bullish_accumulation 6%float 0.5%float 0.0001%float.
End Scenario.

(** Two concrete iterations.  The payloads carry JSON numbers, so no float
    literal has to be parsed. *)
Module Cycles.
Definition no_parse (s : string) : option float := None.
Definition ticker (s : string) (price : float) : json :=
  JObj [("symbol", JStr s); ("price", JNum price)].
Definition premium (s : string) (rate : float) : json :=
  JObj [("symbol", JStr s); ("lastFundingRate", JNum rate)].
Definition oi_answer (x : float) : http_response :=
  Response 200 (Some (JObj [("openInterest", JNum x)])).
Definition answers (t : list (string * http_response)) (s : string) : http_response :=
  default NetworkError ((list_to_map t : gmap string http_response) !! s).

(** BTCUSDT and ETHUSDT as in the end-to-end scenario; the open interest of
    GONEUSDT cannot be fetched at the end of the interval. *)
Definition ordinary : env := {|
  universe := ["BTCUSDT"; "ETHUSDT"; "GONEUSDT"];
  prices_start := Response 200 (Some (JArr [ticker "BTCUSDT" 100; ticker "ETHUSDT" 50;
                                            ticker "GONEUSDT" 7]));
  oi_start := answers [("BTCUSDT", oi_answer 1000); ("ETHUSDT", oi_answer 500);
                       ("GONEUSDT", oi_answer 10)];
  funding := Response 200 (Some (JArr [premium "BTCUSDT" 0.0001]));
  now := "2026/01/01 08:00:00";
  csv_ok := true;
  prices_end := Response 200 (Some (JArr [ticker "BTCUSDT" 100.5; ticker "ETHUSDT" 55;
                                          ticker "GONEUSDT" 7]));
  oi_end := answers [("BTCUSDT", oi_answer 1060); ("ETHUSDT", oi_answer 510);
                     ("GONEUSDT", Response 503 None)];
  webhook_url := None;
  post_ok := true
|}.

(** The same with ZEROUSDT, whose price at the start is zero. *)
Definition zero_price : env := {|
  universe := ["BTCUSDT"; "ZEROUSDT"];
  prices_start := Response 200 (Some (JArr [ticker "BTCUSDT" 100; ticker "ZEROUSDT" 0]));
  oi_start := answers [("BTCUSDT", oi_answer 1000); ("ZEROUSDT", oi_answer 10)];
  funding := Response 200 (Some (JArr [premium "BTCUSDT" 0.0001]));
  now := "2026/01/01 08:00:00";
  csv_ok := true;
  prices_end := Response 200 (Some (JArr [ticker "BTCUSDT" 100.5; ticker "ZEROUSDT" 1]));
  oi_end := answers [("BTCUSDT", oi_answer 1060); ("ZEROUSDT", oi_answer 10)];
  webhook_url := None;
  post_ok := true
|}.
End Cycles.

(** A fan-out over a hundred symbols, the first fifteen of which have been
    let through the semaphore. *)
Module FanOut.
Definition hundred : list string := (λ n, "SYM" +:+ pretty n) <$> seq 0 100.
Definition all_ok (s : string) : http_response :=
  Response 200 (Some (JObj [("openInterest", JNum 1)])).
Definition first_fifteen : list Collector.action := Collector.Acquire <$> seq 0 15.
(** BADUSDT is answered with an error status. *)
Definition one_bad (s : string) : http_response :=
  if decide (s = "BADUSDT") then Response 500 None else all_ok s.
End FanOut.

(** An exchange whose symbols are ASCII: upper-casing and the search for
    six digits on ASCII strings, and a payload of /exchangeInfo. *)
Module Exchange.
Definition upper_char (c : Ascii.ascii) : Ascii.ascii :=
  let n := Ascii.nat_of_ascii c in
  if (97 <=? n)%nat && (n <=? 122)%nat then Ascii.ascii_of_nat (n - 32) else c.
Fixpoint upper (s : string) : string :=
  match s with
  | EmptyString => EmptyString
  | String c s' => String (upper_char c) (upper s')
  end.
Definition is_digit (c : Ascii.ascii) : bool :=
  let n := Ascii.nat_of_ascii c in (48 <=? n)%nat && (n <=? 57)%nat.
Fixpoint six_digits_from (seen : nat) (s : string) : bool :=
  match s with
  | EmptyString => false
  | String c s' =>
      if is_digit c then
        if (seen =? 5)%nat then true else six_digits_from (S seen) s'
      else six_digits_from 0 s'
  end.
Definition has_six_digits (s : string) : bool := six_digits_from 0 s.
Definition entry (symbol status contract : string) : json :=
  JObj [("symbol", JStr symbol); ("status", JStr status);
        ("contractType", JStr contract)].
(** An entry that is not trading and has no other key. *)
Definition delisted : json := JObj [("status", JStr "SETTLING")].
Definition entries : list json :=
  [entry "BTCUSDT" "TRADING" "PERPETUAL"; entry "ethusdc" "TRADING" "PERPETUAL";
   delisted; entry "BTCUSDT_260327" "TRADING" "PERPETUAL";
   entry "ETHUSDT" "TRADING" "CURRENT_QUARTER"; entry "SOLUSDT" "TRADING" "PERPETUAL"].
Definition info (items : list json) : http_response :=
  Response 200 (Some (JObj [("symbols", JArr items)])).
End Exchange.

(** ** Sentences of the specification that the code does not satisfy *)

(** The sentence of the specification, for every input of the detector:
    a symbol that passes the check gets a record exactly when both
    thresholds hold. *)
Definition emits_iff_thresholds_everywhere : Prop :=
  ∀ (prev_prices curr_prices : gmap string float)
    (prev_oi curr_oi : gmap string (option float)) (fr : gmap string float)
    (symbols : list string) s prev_p curr_p prev_o curr_o,
    s ∈ symbols →
    prev_prices !! s = Some prev_p → curr_prices !! s = Some curr_p →
    prev_oi !! s = Some (Some prev_o) → curr_oi !! s = Some (Some curr_o) →
    float_truthy prev_o = true → float_truthy curr_o = true →
    (OI_THRESHOLD <? change_pct prev_o curr_o)%float = true →
    (abs (change_pct prev_p curr_p) <? PRICE_THRESHOLD)%float = true →
    ∃ embeds,
      detect prev_prices curr_prices prev_oi curr_oi (Some fr) symbols = Ok embeds ∧
      emitted embeds s.

(** The sentence of the specification on the end snapshot: some append of
    the iteration carries a row tagged ["end"]. *)
Definition end_snapshot_persisted (float_of_str : string → option float) (e : env)
    : Prop :=
  ∃ data ts, SaveCsv data ts ∈ main_iteration float_of_str e ∧
             ∃ r, r ∈ data ∧ row_phase r = "end".

(** * Properties *)

Ltac each_symbol H :=
  apply list_elem_of_In in H; cbn [In] in H;
  repeat (destruct H as [<- | H]); [.. | destruct H].

Ltac event_cases H :=
  repeat (apply elem_of_cons in H as [H | H]; [try discriminate H|]);
  try (by apply elem_of_nil in H).

(** ** The error monad and IEEE comparisons *)

Lemma bind_Ok {A B} (f : A → result B) (a : A) : Ok a ≫= f = f a.
Proof. reflexivity. Qed.

Lemma py_div_nonzero a b :
  PrimFloat.eqb b 0%float = false → py_div a b = Ok (a / b)%float.
Proof. unfold py_div. intros ->. reflexivity. Qed.

Lemma float_truthy_nonzero x :
  float_truthy x = true → PrimFloat.eqb x 0%float = false.
Proof. unfold float_truthy. destruct (PrimFloat.eqb x 0); [discriminate | reflexivity]. Qed.

(** Nothing lies above a positive finite float and below a negative one. *)
Lemma SFltb_sandwich m1 e1 m2 e2 x :
  SFltb (S754_finite false m1 e1) x = true →
  SFltb x (S754_finite true m2 e2) = false.
Proof.
  unfold SFltb.
  destruct x as [[] | [] | | [] m e]; cbn [SFcompare]; congruence.
Qed.

Lemma ltb_sandwich p :
  (0.3 <? p)%float = true → (p <? -0.3)%float = false.
Proof.
  rewrite !ltb_spec.
  assert (Prim2SF 0.3 = S754_finite false 5404319552844595 (-54)) as ->
    by (vm_compute; reflexivity).
  assert (Prim2SF (-0.3) = S754_finite true 5404319552844595 (-54)) as ->
    by (vm_compute; reflexivity).
  apply SFltb_sandwich.
Qed.

(** A float above zero is true in a condition. *)
Lemma positive_truthy x : (0 <? x)%float = true → float_truthy x = true.
Proof.
  unfold float_truthy. rewrite ltb_spec, FloatAxioms.eqb_spec.
  assert (Prim2SF 0 = S754_zero false) as -> by (vm_compute; reflexivity).
  unfold SFltb, SFeqb.
  destruct (Prim2SF x) as [[] | [] | | [] m e]; cbn [SFcompare]; try discriminate;
    reflexivity.
Qed.

Lemma direction_of_cases p :
  ((0.3 <? p)%float = true → direction_of p = bullish_accumulation) ∧
  ((p <? -0.3)%float = true → direction_of p = bearish_accumulation) ∧
  ((0.3 <? p)%float = false → (p <? -0.3)%float = false →
     direction_of p = flat_accumulation).
Proof.
  unfold direction_of. repeat split.
  - intros ->. reflexivity.
  - intros H. destruct (0.3 <? p)%float eqn:Hb.
    + apply ltb_sandwich in Hb. congruence.
    + rewrite H. reflexivity.
  - intros -> ->. reflexivity.
Qed.

(** ** The detector, symbol by symbol *)

Section DetectorFacts.
Variables prev_prices curr_prices : gmap string float.
Variables prev_oi curr_oi : gmap string (option float).
Variable funding_rates : option (gmap string float).

Local Abbreviation body_at :=
  (detect_symbol prev_prices curr_prices prev_oi curr_oi funding_rates).
Local Abbreviation loop_from :=
  (detect_from prev_prices curr_prices prev_oi curr_oi funding_rates).
Local Abbreviation detect_all :=
  (detect prev_prices curr_prices prev_oi curr_oi funding_rates).
Local Abbreviation record_of :=
  (anomaly_of prev_prices curr_prices prev_oi curr_oi funding_rates).
Local Abbreviation passes := (passes_check prev_prices curr_prices prev_oi curr_oi).
Local Abbreviation present := (present_in_both prev_prices curr_prices prev_oi curr_oi).

(** A symbol that fails the check of the loop head leaves [embeds] as it
    is and raises nothing. *)
Lemma detect_symbol_skip embeds s :
  ¬ passes s → body_at embeds s = Ok embeds.
Proof.
  unfold passes_check, detect_symbol. intros Hn.
  destruct (prev_prices !! s) as [p|] eqn:Hp; [|reflexivity].
  destruct (curr_prices !! s) as [c|] eqn:Hc; [|reflexivity].
  destruct (dict_get prev_oi s) as [o|] eqn:Ho; [|reflexivity].
  destruct (dict_get curr_oi s) as [o'|] eqn:Ho'; [|reflexivity].
  destruct (float_truthy o) eqn:Ht; [|reflexivity].
  destruct (float_truthy o') eqn:Ht'; [|reflexivity].
  exfalso. apply Hn. cbn [truthy]. eauto.
Qed.

Lemma anomaly_of_skip s : ¬ passes s → record_of s = None.
Proof.
  unfold passes_check, anomaly_of. intros Hn.
  destruct (prev_prices !! s) as [p|] eqn:Hp; [|reflexivity].
  destruct (curr_prices !! s) as [c|] eqn:Hc; [|reflexivity].
  destruct (dict_get prev_oi s) as [o|] eqn:Ho; [|reflexivity].
  destruct (dict_get curr_oi s) as [o'|] eqn:Ho'; [|reflexivity].
  destruct (float_truthy o) eqn:Ht; [|reflexivity].
  destruct (float_truthy o') eqn:Ht'; [|reflexivity].
  exfalso. apply Hn. cbn [truthy]. eauto.
Qed.

(** What the loop body does to a symbol that passes the check. *)
Lemma detect_symbol_pass embeds s p :
  passes s → prev_prices !! s = Some p →
  body_at embeds s =
    if PrimFloat.eqb p 0%float then Raise ZeroDivisionError
    else match funding_rates with
         | None => Raise AttributeError
         | Some _ => Ok (embeds ++ option_list (record_of s))
         end.
Proof.
  unfold passes_check, detect_symbol, anomaly_of.
  intros (_ & [c Hc] & Ho & Ho') Hp. rewrite Hp, Hc.
  destruct (dict_get prev_oi s) as [o|]; [|discriminate].
  destruct (dict_get curr_oi s) as [o'|]; [|discriminate].
  cbn [truthy] in Ho, Ho'. rewrite Ho, Ho'. cbn [andb].
  rewrite (py_div_nonzero _ o) by (apply float_truthy_nonzero; assumption).
  rewrite bind_Ok. unfold py_div.
  destruct (PrimFloat.eqb p 0) eqn:Hz; [reflexivity|].
  rewrite bind_Ok. unfold change_pct.
  destruct funding_rates as [fr|]; [|reflexivity].
  cbn [funding_get]. rewrite bind_Ok. cbn [mbind option_bind].
  destruct (OI_THRESHOLD <? _)%float; [|cbn [andb option_list]; by rewrite app_nil_r].
  destruct (abs _ <? PRICE_THRESHOLD)%float; cbn [andb option_list];
    [reflexivity | by rewrite app_nil_r].
Qed.

(** Whatever the inputs, a completed loop body has appended the closed
    form's record or nothing. *)
Lemma detect_symbol_Ok embeds s out :
  body_at embeds s = Ok out → out = embeds ++ option_list (record_of s).
Proof.
  destruct (decide (passes s)) as [Hpass | Hn].
  - destruct Hpass as ([p Hp] & Hrest).
    rewrite (detect_symbol_pass embeds s p) by (unfold passes_check; eauto).
    destruct (PrimFloat.eqb p 0); [discriminate|].
    destruct funding_rates; [|discriminate]. congruence.
  - rewrite detect_symbol_skip, anomaly_of_skip by assumption.
    cbn [option_list]. rewrite app_nil_r. congruence.
Qed.

Lemma detect_from_Ok symbols embeds out :
  loop_from symbols embeds = Ok out → out = embeds ++ omap record_of symbols.
Proof.
  revert embeds. induction symbols as [|s rest IH]; intros embeds; cbn [detect_from].
  - intros [= <-]. cbn. by rewrite app_nil_r.
  - destruct (body_at embeds s) as [mid|e] eqn:Hs; [|discriminate].
    rewrite bind_Ok. intros Hrest. apply IH in Hrest. apply detect_symbol_Ok in Hs.
    subst. rewrite <- app_assoc. f_equal. cbn [omap list_omap].
    destruct (record_of s); reflexivity.
Qed.

(** No passing symbol has a zero previous price, and the funding rates
    are a dict: the loop runs to its end. *)
Lemma detect_from_total fr symbols embeds :
  funding_rates = Some fr →
  (∀ s p, s ∈ symbols → passes s → prev_prices !! s = Some p →
          PrimFloat.eqb p 0%float = false) →
  loop_from symbols embeds = Ok (embeds ++ omap record_of symbols).
Proof.
  intros Hfr. revert embeds.
  induction symbols as [|s rest IH]; intros embeds Hnz; cbn [detect_from].
  - cbn. by rewrite app_nil_r.
  - assert (body_at embeds s = Ok (embeds ++ option_list (record_of s))) as ->.
    { destruct (decide (passes s)) as [Hpass | Hn].
      - destruct Hpass as ([p Hp] & Hrest).
        rewrite (detect_symbol_pass embeds s p) by (unfold passes_check; eauto).
        rewrite (Hnz s p); [by rewrite Hfr | left | unfold passes_check; eauto | done].
      - rewrite detect_symbol_skip, anomaly_of_skip by assumption.
        cbn [option_list]. by rewrite app_nil_r. }
    rewrite bind_Ok, IH.
    + rewrite <- app_assoc. do 2 f_equal. cbn [omap list_omap].
      destruct (record_of s); reflexivity.
    + intros s' p' Hin. apply Hnz. by right.
Qed.

(** A symbol on which the loop body does nothing can be left out of the
    universe: the others are processed as before. *)
Lemma detect_from_drop s symbols embeds :
  (∀ acc, body_at acc s = Ok acc) →
  loop_from symbols embeds = loop_from (filter (λ x, x ≠ s) symbols) embeds.
Proof.
  intros Hskip. revert embeds. induction symbols as [|x rest IH]; intros embeds.
  - reflexivity.
  - destruct (decide (x = s)) as [-> | Hne].
    + rewrite filter_cons_False by (intros H; by apply H).
      cbn [detect_from]. rewrite Hskip, bind_Ok. apply IH.
    + rewrite filter_cons_True by assumption.
      cbn [detect_from]. destruct (body_at embeds x); [|reflexivity].
      rewrite !bind_Ok. apply IH.
Qed.

(** With a dict of funding rates the only exception of the loop is the
    division, and a passing symbol whose previous price is zero raises
    it, unless an earlier symbol already has. *)
Lemma detect_from_zero_price fr s p symbols embeds :
  funding_rates = Some fr → s ∈ symbols → passes s →
  prev_prices !! s = Some p → PrimFloat.eqb p 0%float = true →
  loop_from symbols embeds = Raise ZeroDivisionError.
Proof.
  intros Hfr Hin Hpass Hp Hz. revert embeds.
  induction symbols as [|x rest IH]; intros embeds; [by apply elem_of_nil in Hin|].
  cbn [detect_from].
  destruct (decide (x = s)) as [-> | Hne].
  - rewrite (detect_symbol_pass embeds s p), Hz by assumption. reflexivity.
  - apply elem_of_cons in Hin as [-> | Hin]; [done|].
    destruct (decide (passes x)) as [Hx | Hx].
    + destruct Hx as ([q Hq] & Hrest).
      rewrite (detect_symbol_pass embeds x q) by (unfold passes_check; eauto).
      destruct (PrimFloat.eqb q 0); [reflexivity|].
      transitivity (Ok (embeds ++ option_list (record_of x)) ≫= loop_from rest);
        [by rewrite Hfr | by apply IH].
    + rewrite detect_symbol_skip, bind_Ok by assumption. by apply IH.
Qed.

Lemma anomaly_of_title s r : record_of s = Some r → title r = s.
Proof.
  unfold anomaly_of.
  repeat match goal with |- context [match ?x with _ => _ end] => destruct x end;
    try discriminate.
  intros [= <-]. reflexivity.
Qed.

Lemma anomaly_of_passes s r : record_of s = Some r → passes s.
Proof.
  intros H. destruct (decide (passes s)) as [|Hn]; [assumption|].
  rewrite anomaly_of_skip in H by assumption. discriminate.
Qed.

Lemma passes_present s : passes s → present s.
Proof.
  unfold passes_check, present_in_both.
  intros (? & ? & Ho & Ho'). repeat split; try assumption.
  - destruct (dict_get prev_oi s); [eauto | discriminate].
  - destruct (dict_get curr_oi s); [eauto | discriminate].
Qed.

(** Every record of a completed loop is the closed form's record of its
    own symbol, and that symbol is in the universe. *)
Lemma detect_records symbols embeds r :
  detect_all symbols = Ok embeds → r ∈ embeds →
  title r ∈ symbols ∧ record_of (title r) = Some r.
Proof.
  unfold detect. intros H Hr. apply detect_from_Ok in H.
  rewrite app_nil_l in H. subst embeds.
  apply list_elem_of_omap in Hr as (s & Hs & Ha).
  rewrite (anomaly_of_title s r Ha). auto.
Qed.

End DetectorFacts.

Lemma anomaly_of_fields pp cp po co funding s r :
  anomaly_of pp cp po co funding s = Some r →
  ∃ prev_p curr_p prev_o curr_o,
    pp !! s = Some prev_p ∧ cp !! s = Some curr_p ∧
    dict_get po s = Some prev_o ∧ dict_get co s = Some curr_o ∧
    embed_oi_chg r = change_pct prev_o curr_o ∧
    embed_prc_chg r = change_pct prev_p curr_p ∧
    embed_direction r = direction_of (embed_prc_chg r) ∧
    color r = color_of (embed_prc_chg r) ∧
    (OI_THRESHOLD <? embed_oi_chg r)%float = true ∧
    (abs (embed_prc_chg r) <? PRICE_THRESHOLD)%float = true.
Proof.
  unfold anomaly_of.
  destruct (pp !! s) as [p|]; [|discriminate].
  destruct (cp !! s) as [c|]; [|discriminate].
  destruct (dict_get po s) as [o|]; [|discriminate].
  destruct (dict_get co s) as [o'|]; [|discriminate].
  destruct (float_truthy o && float_truthy o'); [|discriminate]. cbn [andb].
  destruct (OI_THRESHOLD <? _)%float eqn:H1; [|discriminate]. cbn [andb].
  destruct (abs _ <? PRICE_THRESHOLD)%float eqn:H2; [|discriminate].
  intros [= <-]. exists p, c, o, o'. cbn. repeat split; assumption.
Qed.

Lemma dict_get_Some (d : gmap string (option float)) s x :
  d !! s = Some (Some x) → dict_get d s = Some x.
Proof. unfold dict_get. intros ->. reflexivity. Qed.

(** ** Claims on the detector *)

(** C1 (as stated) fails: with a zero previous price elsewhere in the
    universe the loop raises, and BTCUSDT, which passes the check and both
    thresholds, gets no record. *)
Lemma emits_iff_thresholds_fails_with_zero_price : ¬ emits_iff_thresholds_everywhere.
Proof.
  intros H.
  destruct (H Scenario.prev_prices Scenario.curr_prices Scenario.prev_oi
              Scenario.curr_oi Scenario.funding_rates ["BTCUSDT"; "ZEROUSDT"]
              "BTCUSDT" 100%float 100.5%float 1000%float 1060%float)
    as (embeds & Hd & _); try (vm_compute; reflexivity).
  - apply elem_of_cons. by left.
  - vm_compute in Hd. discriminate.
Qed.

(** C1 (amended): when the funding rates are a dict and no symbol of the
    universe that passes the check has a previous price equal to zero, the
    detector returns, and for every symbol with a price in both price
    dicts and a non-absent, non-zero open interest in both snapshots a
    record is emitted if and only if oiChangePct, computed as
    (curr - prev) / prev * 100, exceeds OI_THRESHOLD = 5 and the absolute
    value of priceChangePct, computed likewise, is below
    PRICE_THRESHOLD = 1.2; the record carries these two values. *)
Theorem detector_emits_iff_thresholds
    (prev_prices curr_prices : gmap string float)
    (prev_oi curr_oi : gmap string (option float)) (fr : gmap string float)
    (symbols : list string) :
  (∀ s p, s ∈ symbols → passes_check prev_prices curr_prices prev_oi curr_oi s →
          prev_prices !! s = Some p → (p =? 0)%float = false) →
  ∃ embeds,
    detect prev_prices curr_prices prev_oi curr_oi (Some fr) symbols = Ok embeds ∧
    ∀ s prev_p curr_p prev_o curr_o,
      s ∈ symbols →
      prev_prices !! s = Some prev_p → curr_prices !! s = Some curr_p →
      prev_oi !! s = Some (Some prev_o) → curr_oi !! s = Some (Some curr_o) →
      float_truthy prev_o = true → float_truthy curr_o = true →
      (emitted embeds s ↔
         (OI_THRESHOLD <? change_pct prev_o curr_o)%float = true ∧
         (abs (change_pct prev_p curr_p) <? PRICE_THRESHOLD)%float = true) ∧
      (∀ r, r ∈ embeds → title r = s →
         embed_oi_chg r = change_pct prev_o curr_o ∧
         embed_prc_chg r = change_pct prev_p curr_p) ∧
      OI_THRESHOLD = 5%float ∧ PRICE_THRESHOLD = 1.2%float.
Proof.
  intros Hnz. eexists. split.
  { unfold detect. rewrite (detect_from_total _ _ _ _ _ fr) by (reflexivity || exact Hnz).
    rewrite app_nil_l. reflexivity. }
  intros s prev_p curr_p prev_o curr_o Hin Hpp Hcp Hpo Hco Hto Htc.
  apply dict_get_Some in Hpo, Hco.
  assert (∀ r, r ∈ omap (anomaly_of prev_prices curr_prices prev_oi curr_oi (Some fr)) symbols →
               title r = s →
               embed_oi_chg r = change_pct prev_o curr_o ∧
               embed_prc_chg r = change_pct prev_p curr_p ∧
               (OI_THRESHOLD <? embed_oi_chg r)%float = true ∧
               (abs (embed_prc_chg r) <? PRICE_THRESHOLD)%float = true) as Hrec.
  { intros r Hr Ht. apply list_elem_of_omap in Hr as (s' & _ & Ha).
    pose proof (anomaly_of_title _ _ _ _ _ _ _ Ha) as Ht'.
    assert (s' = s) as -> by congruence.
    apply anomaly_of_fields in Ha
      as (p & c & o & o' & ? & ? & ? & ? & E1 & E2 & _ & _ & T1 & T2).
    repeat split; congruence. }
  split; [split|split; [|split; reflexivity]].
  - intros (r & Hr & Ht). destruct (Hrec r Hr Ht) as (E1 & E2 & T1 & T2).
    rewrite <- E1, <- E2. auto.
  - intros [T1 T2].
    assert (is_Some (anomaly_of prev_prices curr_prices prev_oi curr_oi (Some fr) s))
      as [r Hr].
    { unfold anomaly_of. rewrite Hpp, Hcp, Hpo, Hco, Hto, Htc, T1, T2. cbn [andb]. eauto. }
    exists r. split; [|by eapply anomaly_of_title].
    apply list_elem_of_omap. eauto.
  - intros r Hr Ht. destruct (Hrec r Hr Ht) as (E1 & E2 & _). auto.
Qed.

Lemma detector_emits_iff_thresholds_witness :
  ∃ embeds,
    detect Scenario.prev_prices Scenario.curr_prices Scenario.prev_oi Scenario.curr_oi
      (Some Scenario.funding_rates) ["BTCUSDT"; "ETHUSDT"; "IDLEUSDT"; "GONEUSDT"]
    = Ok embeds ∧
    ∀ s prev_p curr_p prev_o curr_o,
      s ∈ ["BTCUSDT"; "ETHUSDT"; "IDLEUSDT"; "GONEUSDT"] →
      Scenario.prev_prices !! s = Some prev_p → Scenario.curr_prices !! s = Some curr_p →
      Scenario.prev_oi !! s = Some (Some prev_o) →
      Scenario.curr_oi !! s = Some (Some curr_o) →
      float_truthy prev_o = true → float_truthy curr_o = true →
      (emitted embeds s ↔
         (OI_THRESHOLD <? change_pct prev_o curr_o)%float = true ∧
         (abs (change_pct prev_p curr_p) <? PRICE_THRESHOLD)%float = true) ∧
      (∀ r, r ∈ embeds → title r = s →
         embed_oi_chg r = change_pct prev_o curr_o ∧
         embed_prc_chg r = change_pct prev_p curr_p) ∧
      OI_THRESHOLD = 5%float ∧ PRICE_THRESHOLD = 1.2%float.
Proof.
  apply (detector_emits_iff_thresholds Scenario.prev_prices Scenario.curr_prices
           Scenario.prev_oi Scenario.curr_oi Scenario.funding_rates).
  intros s p Hin _ Hp.
  each_symbol Hin; vm_compute in Hp; injection Hp as <-; vm_compute; reflexivity.
Defined.

(** C2: in every record the detector emits, the direction is
    [direction_of] of the record's priceChangePct: above 0.3 it is
    bullish-accumulation, below -0.3 it is bearish-accumulation, and
    anything else, 0.3 and -0.3 themselves included, is flat-accumulation. *)
Theorem direction_is_function_of_price_change
    (prev_prices curr_prices : gmap string float)
    (prev_oi curr_oi : gmap string (option float))
    (funding_rates : option (gmap string float))
    (symbols : list string) (embeds : list embed) (r : embed) :
  detect prev_prices curr_prices prev_oi curr_oi funding_rates symbols = Ok embeds →
  r ∈ embeds →
  embed_direction r = direction_of (embed_prc_chg r) ∧
  ((0.3 <? embed_prc_chg r)%float = true →
     embed_direction r = bullish_accumulation) ∧
  ((embed_prc_chg r <? -0.3)%float = true →
     embed_direction r = bearish_accumulation) ∧
  ((0.3 <? embed_prc_chg r)%float = false → (embed_prc_chg r <? -0.3)%float = false →
     embed_direction r = flat_accumulation) ∧
  direction_of 0.3%float = flat_accumulation ∧
  direction_of (-0.3)%float = flat_accumulation.
Proof.
  intros Hd Hr.
  destruct (detect_records _ _ _ _ _ _ _ _ Hd Hr) as [_ Ha].
  apply anomaly_of_fields in Ha as (p & c & o & o' & _ & _ & _ & _ & _ & _ & Hdir & _).
  rewrite Hdir.
  destruct (direction_of_cases (embed_prc_chg r)) as (Hup & Hdown & Hflat).
  repeat split; try assumption; vm_compute; reflexivity.
Qed.

Lemma direction_is_function_of_price_change_witness :
  embed_direction Scenario.btc = direction_of (embed_prc_chg Scenario.btc) ∧
  embed_direction Scenario.btc = bullish_accumulation.
Proof.
  destruct (direction_is_function_of_price_change
              Scenario.prev_prices Scenario.curr_prices Scenario.prev_oi Scenario.curr_oi
              (Some Scenario.funding_rates) ["BTCUSDT"; "ETHUSDT"] [Scenario.btc]
              Scenario.btc) as (Hfun & Hup & _).
  - vm_compute. reflexivity.
  - apply list_elem_of_In. cbn [In]. left. reflexivity.
  - split; [exact Hfun | apply Hup; vm_compute; reflexivity].
Defined.

(** C3: a record is produced for a symbol only if the symbol has a
    non-absent price and a non-absent open interest in both snapshots; a
    symbol that misses one of the four is passed over by the loop body
    without an exception, whatever its other values, and the rest of the
    universe is processed as if the symbol were not there. *)
Theorem anomaly_needs_both_snapshots
    (prev_prices curr_prices : gmap string float)
    (prev_oi curr_oi : gmap string (option float))
    (funding_rates : option (gmap string float))
    (symbols : list string) (s : string) :
  (∀ embeds,
     detect prev_prices curr_prices prev_oi curr_oi funding_rates symbols = Ok embeds →
     emitted embeds s →
     present_in_both prev_prices curr_prices prev_oi curr_oi s) ∧
  (¬ present_in_both prev_prices curr_prices prev_oi curr_oi s →
     (∀ acc, detect_symbol prev_prices curr_prices prev_oi curr_oi funding_rates acc s
             = Ok acc) ∧
     detect prev_prices curr_prices prev_oi curr_oi funding_rates symbols =
     detect prev_prices curr_prices prev_oi curr_oi funding_rates
       (filter (λ x, x ≠ s) symbols)).
Proof.
  split.
  - intros embeds Hd (r & Hr & <-).
    destruct (detect_records _ _ _ _ _ _ _ _ Hd Hr) as [_ Ha].
    eapply passes_present, anomaly_of_passes, Ha.
  - intros Hn.
    assert (∀ acc, detect_symbol prev_prices curr_prices prev_oi curr_oi funding_rates
                     acc s = Ok acc) as Hskip.
    { intros acc. apply detect_symbol_skip. intros Hp. apply Hn, passes_present, Hp. }
    split; [exact Hskip|]. unfold detect. by apply detect_from_drop.
Qed.

Lemma anomaly_needs_both_snapshots_witness :
  present_in_both Scenario.prev_prices Scenario.curr_prices Scenario.prev_oi
    Scenario.curr_oi "BTCUSDT" ∧
  detect Scenario.prev_prices Scenario.curr_prices Scenario.prev_oi Scenario.curr_oi
    (Some Scenario.funding_rates) ["GONEUSDT"; "BTCUSDT"] =
  detect Scenario.prev_prices Scenario.curr_prices Scenario.prev_oi Scenario.curr_oi
    (Some Scenario.funding_rates) ["BTCUSDT"].
Proof.
  split.
  - apply (anomaly_needs_both_snapshots Scenario.prev_prices Scenario.curr_prices
             Scenario.prev_oi Scenario.curr_oi (Some Scenario.funding_rates)
             ["BTCUSDT"; "ETHUSDT"] "BTCUSDT") with (embeds := [Scenario.btc]).
    + vm_compute. reflexivity.
    + exists Scenario.btc. split; [|reflexivity].
      apply list_elem_of_In. cbn [In]. left. reflexivity.
  - apply (anomaly_needs_both_snapshots Scenario.prev_prices Scenario.curr_prices
             Scenario.prev_oi Scenario.curr_oi (Some Scenario.funding_rates)
             ["GONEUSDT"; "BTCUSDT"] "GONEUSDT").
    intros (_ & _ & _ & [x Hx]). vm_compute in Hx. discriminate.
Defined.

Lemma zero_oi_fails_check pp cp (po co : gmap string (option float)) s prev_o :
  po !! s = Some (Some prev_o) → (prev_o =? 0)%float = true →
  ¬ passes_check pp cp po co s.
Proof.
  intros Hpo Hz (_ & _ & Ht & _). rewrite (dict_get_Some _ _ _ Hpo) in Ht.
  cbn [truthy] in Ht. unfold float_truthy in Ht. rewrite Hz in Ht. discriminate.
Qed.

(** C4: a symbol whose previous open interest is exactly zero (of either
    sign) does not reach the division: the loop body leaves [embeds]
    untouched and raises nothing, no record is produced for it, and the
    other symbols are processed as if it were not in the universe.  More
    generally the division of oiChangePct never raises: a
    [ZeroDivisionError] of the loop body always comes from a zero previous
    price. *)
Theorem zero_previous_oi_is_skipped
    (prev_prices curr_prices : gmap string float)
    (prev_oi curr_oi : gmap string (option float))
    (funding_rates : option (gmap string float))
    (symbols : list string) (s : string) (prev_o : float) :
  prev_oi !! s = Some (Some prev_o) → (prev_o =? 0)%float = true →
  (∀ acc, detect_symbol prev_prices curr_prices prev_oi curr_oi funding_rates acc s
          = Ok acc) ∧
  detect prev_prices curr_prices prev_oi curr_oi funding_rates symbols =
  detect prev_prices curr_prices prev_oi curr_oi funding_rates
    (filter (λ x, x ≠ s) symbols) ∧
  (∀ embeds,
     detect prev_prices curr_prices prev_oi curr_oi funding_rates symbols = Ok embeds →
     ¬ emitted embeds s) ∧
  (∀ acc s',
     detect_symbol prev_prices curr_prices prev_oi curr_oi funding_rates acc s'
     = Raise ZeroDivisionError →
     ∃ p, prev_prices !! s' = Some p ∧ (p =? 0)%float = true).
Proof.
  intros Hpo Hz.
  pose proof (zero_oi_fails_check prev_prices curr_prices _ curr_oi _ _ Hpo Hz) as Hn.
  assert (∀ acc, detect_symbol prev_prices curr_prices prev_oi curr_oi funding_rates
                   acc s = Ok acc) as Hskip
    by (intros acc; by apply detect_symbol_skip).
  split; [exact Hskip|]. split; [unfold detect; by apply detect_from_drop|]. split.
  - intros embeds Hd (r & Hr & <-).
    destruct (detect_records _ _ _ _ _ _ _ _ Hd Hr) as [_ Ha].
    apply Hn. eapply anomaly_of_passes, Ha.
  - intros acc s' Hraise.
    destruct (decide (passes_check prev_prices curr_prices prev_oi curr_oi s'))
      as [Hpass | Hfail].
    + pose proof Hpass as ([p Hp] & _).
      rewrite (detect_symbol_pass _ _ _ _ _ acc s' p Hpass Hp) in Hraise.
      exists p. split; [assumption|].
      destruct (p =? 0)%float; [reflexivity|].
      destruct funding_rates; discriminate.
    + rewrite detect_symbol_skip in Hraise by assumption. discriminate.
Qed.

Lemma zero_previous_oi_is_skipped_witness :
  detect Scenario.prev_prices Scenario.curr_prices Scenario.prev_oi Scenario.curr_oi
    (Some Scenario.funding_rates) ["IDLEUSDT"; "BTCUSDT"] =
  detect Scenario.prev_prices Scenario.curr_prices Scenario.prev_oi Scenario.curr_oi
    (Some Scenario.funding_rates) ["BTCUSDT"].
Proof.
  apply (zero_previous_oi_is_skipped Scenario.prev_prices Scenario.curr_prices
           Scenario.prev_oi Scenario.curr_oi (Some Scenario.funding_rates)
           ["IDLEUSDT"; "BTCUSDT"] "IDLEUSDT" 0%float);
    vm_compute; reflexivity.
Defined.

(** ** One iteration of the loop *)

Section CycleFacts.
Variable float_of_str : string → option float.

(** The events of an iteration, case by case. *)
Lemma main_iteration_cases e :
  main_iteration float_of_str e =
  match data_start (universe e) (prev_prices_of float_of_str e) (prev_oi_of float_of_str e) (funding_rates_of float_of_str e) with
  | Raise ex => [LogError ex; Sleep 10]
  | Ok rows =>
      if csv_ok e then
        SaveCsv rows (now e) :: Sleep CHECK_INTERVAL ::
        match detect (prev_prices_of float_of_str e) (curr_prices_of float_of_str e) (prev_oi_of float_of_str e) (curr_oi_of float_of_str e)
                (funding_rates_of float_of_str e) (universe e) with
        | Raise ex => [LogError ex; Sleep 10]
        | Ok [] => [LogInfo 0]
        | Ok embeds =>
            Post (webhook_url e) (take 10 embeds) ::
            if post_ok e then [LogInfo (length embeds)]
            else [LogError ClientError; Sleep 10]
        end
      else [LogError OSError; Sleep 10]
  end.
Proof.
  unfold main_iteration, cycle_body, prev_prices_of, curr_prices_of, prev_oi_of,
    curr_oi_of, funding_rates_of, save_to_csv.
  destruct (data_start _ _ _ _) as [rows|ex]; [|reflexivity].
  destruct (csv_ok e); [|reflexivity].
  destruct (detect _ _ _ _ _ _) as [[|r embeds]|ex]; [reflexivity| |reflexivity].
  unfold dispatch. destruct (post_ok e); reflexivity.
Qed.

End CycleFacts.

Lemma data_start_dict pp po fr symbols :
  data_start symbols pp po (Some fr) = Ok (omap (start_row_of pp po fr) symbols).
Proof.
  induction symbols as [|s rest IH]; [reflexivity|].
  cbn [data_start omap list_omap]. unfold start_row_of at 1.
  destruct (pp !! s) as [p|]; [|exact IH].
  destruct (dict_get po s) as [o|]; [|exact IH].
  destruct (float_truthy o); [|exact IH].
  cbn [funding_get]. rewrite bind_Ok, IH. reflexivity.
Qed.

Lemma data_start_phase pp po funding symbols rows r :
  data_start symbols pp po funding = Ok rows → r ∈ rows → row_phase r = "start".
Proof.
  revert rows. induction symbols as [|s rest IH]; intros rows; cbn [data_start].
  - intros [= <-] Hr. by apply elem_of_nil in Hr.
  - destruct (pp !! s) as [p|]; [|apply IH].
    destruct (dict_get po s) as [o|]; [|apply IH].
    destruct (float_truthy o); [|apply IH].
    destruct (funding_get funding s) as [f|]; [|discriminate]. rewrite bind_Ok.
    destruct (data_start rest pp po funding) as [rows'|]; [|discriminate].
    rewrite bind_Ok. intros [= <-] Hr.
    apply elem_of_cons in Hr as [-> | Hr]; [reflexivity | by eapply IH].
Qed.

(** Without a dict of funding rates the comprehension raises at the first
    symbol that has a price and a true open interest. *)
Lemma data_start_no_dict pp po symbols s p o :
  s ∈ symbols → pp !! s = Some p → dict_get po s = Some o → float_truthy o = true →
  data_start symbols pp po None = Raise AttributeError.
Proof.
  intros Hin Hp Ho Ht. induction symbols as [|x rest IH]; [by apply elem_of_nil in Hin|].
  cbn [data_start].
  destruct (decide (x = s)) as [-> | Hne].
  - rewrite Hp, Ho, Ht. reflexivity.
  - apply elem_of_cons in Hin as [-> | Hin]; [done|].
    destruct (pp !! x); [|by apply IH].
    destruct (dict_get po x) as [y|]; [|by apply IH].
    destruct (float_truthy y); [reflexivity | by apply IH].
Qed.

(** Whatever is appended to the history log in an iteration is the start
    comprehension, stamped with the start time. *)
Lemma saved_rows_are_start_rows float_of_str e data ts :
  SaveCsv data ts ∈ main_iteration float_of_str e →
  ts = now e ∧
  data_start (universe e) (prev_prices_of float_of_str e) (prev_oi_of float_of_str e)
    (funding_rates_of float_of_str e) = Ok data.
Proof.
  rewrite main_iteration_cases.
  destruct (data_start _ _ _ _) as [rows|ex]; [|intros H; event_cases H].
  destruct (csv_ok e); [|intros H; event_cases H].
  destruct (detect _ _ _ _ _ _) as [[|r embeds]|ex]; [| destruct (post_ok e) |];
    intros H; event_cases H; injection H as <- <-; auto.
Qed.

Lemma at_most_one_save float_of_str e :
  length (List.filter is_save (main_iteration float_of_str e)) ≤ 1.
Proof.
  rewrite main_iteration_cases.
  destruct (data_start _ _ _ _) as [rows|ex]; [|cbn; lia].
  destruct (csv_ok e); [|cbn; lia].
  destruct (detect _ _ _ _ _ _) as [[|r embeds]|ex]; [| destruct (post_ok e) |];
    cbn; lia.
Qed.

Lemma the_save_of_an_iteration float_of_str e fr :
  funding_rates_of float_of_str e = Some fr → csv_ok e = true →
  List.filter is_save (main_iteration float_of_str e) =
  [SaveCsv (omap (start_row_of (prev_prices_of float_of_str e)
                    (prev_oi_of float_of_str e) fr) (universe e)) (now e)].
Proof.
  intros Hfr Hcsv. rewrite main_iteration_cases, Hfr, data_start_dict, Hcsv.
  destruct (detect _ _ _ _ _ _) as [[|r embeds]|ex]; [| destruct (post_ok e) |];
    reflexivity.
Qed.

(** ** The dispatcher *)

Lemma dispatch_trace url ok r rest :
  trace (dispatch url ok (r :: rest)) = [Post url (take 10 (r :: rest))].
Proof. destruct ok; reflexivity. Qed.

(** C8: with no record the dispatcher makes no call; with [n > 0] records
    it makes exactly one call, whose embeds are the first [min n 10]
    records, so that fifteen records give a call with ten embeds.  The
    webhook calls of an iteration that reaches the dispatcher are those of
    the dispatcher on the records the detector produced. *)
Theorem dispatch_sends_first_ten (url : option string) (ok : bool) :
  trace (dispatch url ok []) = [] ∧
  (∀ r rest,
     trace (dispatch url ok (r :: rest)) = [Post url (take 10 (r :: rest))] ∧
     length (take 10 (r :: rest)) = Nat.min (length (r :: rest)) 10) ∧
  (∀ r, trace (dispatch url ok (replicate 15 r)) = [Post url (replicate 10 r)]) ∧
  (∀ float_of_str e rows embeds,
     url = webhook_url e → ok = post_ok e →
     data_start (universe e) (prev_prices_of float_of_str e) (prev_oi_of float_of_str e)
       (funding_rates_of float_of_str e) = Ok rows →
     csv_ok e = true →
     detect (prev_prices_of float_of_str e) (curr_prices_of float_of_str e)
       (prev_oi_of float_of_str e) (curr_oi_of float_of_str e)
       (funding_rates_of float_of_str e) (universe e) = Ok embeds →
     List.filter is_post (main_iteration float_of_str e) =
     trace (dispatch url ok embeds)).
Proof.
  split; [reflexivity|]. split; [|split].
  - intros r rest. split; [apply dispatch_trace|]. rewrite length_take. lia.
  - intros r. change (replicate 15 r) with (r :: replicate 14 r).
    rewrite dispatch_trace. reflexivity.
  - intros fos e rows embeds -> -> Hrows Hcsv Hdet.
    rewrite main_iteration_cases, Hrows, Hcsv, Hdet.
    destruct embeds as [|r rest]; [reflexivity|].
    rewrite dispatch_trace. destruct (post_ok e); reflexivity.
Qed.

Lemma dispatch_sends_first_ten_witness :
  List.filter is_post (main_iteration Cycles.no_parse Cycles.ordinary) =
  [Post None [Scenario.btc]].
Proof.
  destruct (dispatch_sends_first_ten None true) as (_ & _ & _ & H).
  rewrite (H Cycles.no_parse Cycles.ordinary
             [Row "BTCUSDT" 100 1000 0.0001 "start"; Row "ETHUSDT" 50 500 0 "start";
              Row "GONEUSDT" 7 10 0 "start"]
             [Scenario.btc]);
    vm_compute; reflexivity.
Defined.

(** C5 (as stated) fails: in an iteration that runs to its end, with
    BTCUSDT holding a price and an open interest in the end snapshot,
    nothing tagged ["end"] is appended; the only append is the start one. *)
Lemma end_snapshot_is_not_persisted :
  curr_prices_of Cycles.no_parse Cycles.ordinary !! "BTCUSDT" = Some 100.5%float ∧
  curr_oi_of Cycles.no_parse Cycles.ordinary !! "BTCUSDT" = Some (Some 1060%float) ∧
  length (List.filter is_save (main_iteration Cycles.no_parse Cycles.ordinary)) = 1 ∧
  ¬ end_snapshot_persisted Cycles.no_parse Cycles.ordinary.
Proof.
  split; [vm_compute; reflexivity|]. split; [vm_compute; reflexivity|].
  split; [vm_compute; reflexivity|].
  intros (data & ts & Hin & r & Hr & Hend).
  apply saved_rows_are_start_rows in Hin as [_ Hrows].
  rewrite (data_start_phase _ _ _ _ _ _ Hrows Hr) in Hend. discriminate.
Qed.

(** C5 (amended): only the start snapshot is persisted.  Every append of
    an iteration is stamped with the start time and holds rows tagged
    ["start"]; there is at most one append; and when the funding rates are
    a dict and the write goes through there is exactly one, with one row
    per symbol of the universe that has a start price and a non-absent,
    non-zero start open interest, in universe order. *)
Theorem start_snapshot_is_persisted (float_of_str : string → option float) (e : env) :
  (∀ data ts, SaveCsv data ts ∈ main_iteration float_of_str e →
     ts = now e ∧ ∀ r, r ∈ data → row_phase r = "start") ∧
  length (List.filter is_save (main_iteration float_of_str e)) ≤ 1 ∧
  (∀ fr, funding_rates_of float_of_str e = Some fr → csv_ok e = true →
     List.filter is_save (main_iteration float_of_str e) =
     [SaveCsv (omap (start_row_of (prev_prices_of float_of_str e)
                       (prev_oi_of float_of_str e) fr) (universe e)) (now e)]).
Proof.
  split; [|split].
  - intros data ts Hin. apply saved_rows_are_start_rows in Hin as [-> Hrows].
    split; [reflexivity|]. intros r Hr. by eapply data_start_phase.
  - apply at_most_one_save.
  - apply the_save_of_an_iteration.
Qed.

Lemma start_snapshot_is_persisted_witness :
  List.filter is_save (main_iteration Cycles.no_parse Cycles.ordinary) =
  [SaveCsv [Row "BTCUSDT" 100 1000 0.0001 "start"; Row "ETHUSDT" 50 500 0 "start";
            Row "GONEUSDT" 7 10 0 "start"] "2026/01/01 08:00:00"].
Proof.
  destruct (start_snapshot_is_persisted Cycles.no_parse Cycles.ordinary) as (_ & _ & H).
  rewrite (H (list_to_map [("BTCUSDT", 0.0001%float)]));
    vm_compute; reflexivity.
Defined.

(** C10: a symbol of the universe that is in both price dicts with a
    previous price of exactly zero and has a positive open interest in
    both snapshots makes the detector raise [ZeroDivisionError]: the check
    at the loop head lets it through (prices are tested for membership
    only) and the priceChangePct division fails.  The iteration ends in
    the handler of the loop, with no webhook call and no completion log
    line before the ten-second sleep; when the start snapshot was written
    the events are exactly: the append, the 45-second sleep, the error log
    line, the ten-second sleep. *)
Theorem zero_previous_price_aborts_cycle
    (float_of_str : string → option float) (e : env) (s : string)
    (p prev_o curr_o : float) :
  s ∈ universe e →
  prev_prices_of float_of_str e !! s = Some p → (p =? 0)%float = true →
  is_Some (curr_prices_of float_of_str e !! s) →
  prev_oi_of float_of_str e !! s = Some (Some prev_o) → (0 <? prev_o)%float = true →
  curr_oi_of float_of_str e !! s = Some (Some curr_o) → (0 <? curr_o)%float = true →
  (∀ fr, detect (prev_prices_of float_of_str e) (curr_prices_of float_of_str e)
           (prev_oi_of float_of_str e) (curr_oi_of float_of_str e) (Some fr) (universe e)
         = Raise ZeroDivisionError) ∧
  (∃ t ex, main_iteration float_of_str e = t ++ [LogError ex; Sleep 10] ∧
           List.filter is_post t = [] ∧ List.filter is_log_info t = []) ∧
  (∀ fr, funding_rates_of float_of_str e = Some fr → csv_ok e = true →
     main_iteration float_of_str e =
     [SaveCsv (omap (start_row_of (prev_prices_of float_of_str e)
                       (prev_oi_of float_of_str e) fr) (universe e)) (now e);
      Sleep CHECK_INTERVAL; LogError ZeroDivisionError; Sleep 10]).
Proof.
  intros Hin Hp Hz Hc Hpo Hpos Hco Hpos'.
  apply positive_truthy in Hpos, Hpos'.
  assert (passes_check (prev_prices_of float_of_str e) (curr_prices_of float_of_str e)
            (prev_oi_of float_of_str e) (curr_oi_of float_of_str e) s) as Hpass.
  { unfold passes_check. rewrite (dict_get_Some _ _ _ Hpo), (dict_get_Some _ _ _ Hco).
    cbn [truthy]. eauto. }
  assert (∀ fr, detect (prev_prices_of float_of_str e) (curr_prices_of float_of_str e)
                  (prev_oi_of float_of_str e) (curr_oi_of float_of_str e) (Some fr)
                  (universe e) = Raise ZeroDivisionError) as Hraise.
  { intros fr. unfold detect. by eapply detect_from_zero_price. }
  split; [exact Hraise|]. split.
  - rewrite main_iteration_cases.
    destruct (funding_rates_of float_of_str e) as [fr|] eqn:Hfr.
    + rewrite data_start_dict, Hraise. destruct (csv_ok e).
      * exists [SaveCsv (omap (start_row_of (prev_prices_of float_of_str e)
                          (prev_oi_of float_of_str e) fr) (universe e)) (now e);
                Sleep CHECK_INTERVAL], ZeroDivisionError. auto.
      * exists [], OSError. auto.
    + rewrite (data_start_no_dict _ _ _ s p prev_o Hin Hp (dict_get_Some _ _ _ Hpo) Hpos).
      exists [], AttributeError. auto.
  - intros fr Hfr Hcsv.
    rewrite main_iteration_cases, Hfr, data_start_dict, Hcsv, Hraise. reflexivity.
Qed.

Lemma zero_previous_price_aborts_cycle_witness :
  main_iteration Cycles.no_parse Cycles.zero_price =
  [SaveCsv [Row "BTCUSDT" 100 1000 0.0001 "start"; Row "ZEROUSDT" 0 10 0 "start"]
     "2026/01/01 08:00:00";
   Sleep 45; LogError ZeroDivisionError; Sleep 10].
Proof.
  destruct (zero_previous_price_aborts_cycle Cycles.no_parse Cycles.zero_price "ZEROUSDT"
              0%float 10%float 10%float) as (_ & _ & H);
    [ apply list_elem_of_In; cbn; auto
    | vm_compute; reflexivity
    | vm_compute; reflexivity
    | exists 1%float; vm_compute; reflexivity
    | vm_compute; reflexivity
    | vm_compute; reflexivity
    | vm_compute; reflexivity
    | vm_compute; reflexivity
    | ].
  rewrite (H (list_to_map [("BTCUSDT", 0.0001%float)]));
    vm_compute; reflexivity.
Defined.

(** ** The collector *)

Lemma fetch_open_interest_symbol fos s r : (fetch_open_interest fos s r).1 = s.
Proof.
  unfold fetch_open_interest, try_except. destruct r as [|st body]; [reflexivity|].
  cbn. destruct (bool_decide (st = 200%Z)); [|reflexivity].
  destruct body as [doc|]; [|reflexivity]. cbn.
  destruct (subscript doc "openInterest" ≫= py_float fos); reflexivity.
Qed.

(** A request resolves to [None] exactly when it failed in one of the
    listed ways. *)
Lemma fetch_open_interest_None fos s r :
  (fetch_open_interest fos s r).2 = None ↔ oi_fetch_failed fos r.
Proof.
  unfold fetch_open_interest, try_except, oi_fetch_failed.
  destruct r as [|st body]; [done|]. cbn.
  destruct (bool_decide (st = 200%Z)) eqn:Hst.
  - apply bool_decide_eq_true in Hst.
    destruct body as [doc|]; cbn; [|split; [intros _; right; by left | done]].
    destruct (subscript doc "openInterest" ≫= py_float fos) as [x|ex] eqn:Hx; cbn.
    + split; [discriminate|]. intros [? | [? | (doc' & ex & [= <-] & Hr)]];
        [done | done | congruence].
    + split; [|done]. intros _. right. right. eauto.
  - apply bool_decide_eq_false in Hst. cbn. split; [|done]. auto.
Qed.

Lemma py_dict_lookup {V} (g : string → V) (l : list string) (m : gmap string V) k :
  fold_left (λ m kv, <[kv.1 := kv.2]> m) (map (λ s, (s, g s)) l) m !! k =
  if decide (k ∈ l) then Some (g k) else m !! k.
Proof.
  revert m. induction l as [|x l IH]; intros m; cbn [map fold_left].
  - rewrite decide_False by apply not_elem_of_nil. reflexivity.
  - rewrite IH. cbn. destruct (decide (k ∈ l)) as [Hin | Hnin].
    + rewrite decide_True by (by right). reflexivity.
    + destruct (decide (x = k)) as [-> | Hne].
      * rewrite decide_True by (by left). apply lookup_insert_eq.
      * rewrite decide_False by (intros [-> | ?]%elem_of_cons; done).
        by apply lookup_insert_ne.
Qed.

Lemma get_all_open_interest_lookup fos symbols oi_env s :
  get_all_open_interest fos symbols oi_env !! s =
  if decide (s ∈ symbols) then Some (fetch_open_interest fos s (oi_env s)).2 else None.
Proof.
  unfold get_all_open_interest, py_dict.
  rewrite (map_ext _ (λ s, (s, (fetch_open_interest fos s (oi_env s)).2))).
  - rewrite (py_dict_lookup (λ s, (fetch_open_interest fos s (oi_env s)).2)).
    destruct (decide (s ∈ symbols)); [reflexivity | apply lookup_empty].
  - intros x. rewrite <- (fetch_open_interest_symbol fos x (oi_env x)) at 3.
    by destruct (fetch_open_interest fos x (oi_env x)).
Qed.

Section CollectorFacts.
Import Collector.
Variable float_of_str : string → option float.
Variable oi_env : string → http_response.

Local Abbreviation next := (step float_of_str oi_env).
Local Abbreviation exec := (run float_of_str oi_env).
Local Abbreviation reach := (reachable float_of_str oi_env).
Local Abbreviation fetch := (λ s, fetch_open_interest float_of_str s (oi_env s)).
Local Abbreviation follows := (tasks_follow float_of_str oi_env).

Lemma count_insert {A} (f : A → bool) (l : list A) i x y :
  l !! i = Some x →
  length (List.filter f (<[i := y]> l)) + Nat.b2n (f x) =
  length (List.filter f l) + Nat.b2n (f y).
Proof.
  revert i. induction l as [|a l IH]; intros [|i] Hl; try discriminate.
  - injection Hl as ->. cbn. destruct (f x), (f y); cbn; lia.
  - simpl in Hl. specialize (IH i Hl). simpl. destruct (f a); simpl; lia.
Qed.

Lemma count_positive {A} (f : A → bool) (l : list A) :
  0 < length (List.filter f l) → ∃ i x, l !! i = Some x ∧ f x = true.
Proof.
  induction l as [|a l IH]; cbn; [lia|].
  destruct (f a) eqn:Hf.
  - intros _. exists 0, a. auto.
  - intros H. destruct (IH H) as (i & x & Hi & Hx). exists (S i), x. auto.
Qed.

Lemma start_permits symbols : permits_accounted (gather_start symbols).
Proof.
  unfold permits_accounted, outstanding. cbn.
  induction symbols as [|s l IH]; [reflexivity | exact IH].
Qed.

Lemma start_follows symbols : follows symbols (gather_start symbols).
Proof.
  unfold tasks_follow. cbn. induction symbols as [|s l IH]; constructor; [|exact IH].
  split; [reflexivity | discriminate].
Qed.

Lemma step_permits a p p' :
  next a p = Some p' → permits_accounted p → permits_accounted p'.
Proof.
  unfold permits_accounted, outstanding. destruct a as [i | i]; cbn.
  - destruct (tasks p !! i) as [[s [| |res]]|] eqn:Hi; try discriminate.
    destruct (sem_value p) as [|n] eqn:Hsem; [discriminate|].
    intros [= <-]. cbn. pose proof (count_insert in_flight _ _ _ (s, InFlight) Hi) as Hc.
    cbn in Hc. lia.
  - destruct (tasks p !! i) as [[s [| |res]]|] eqn:Hi; try discriminate.
    intros [= <-]. cbn.
    pose proof (count_insert in_flight _ _ _ (s, Resolved (fetch s)) Hi) as Hc.
    cbn in Hc. lia.
Qed.

Lemma step_follows symbols a p p' :
  next a p = Some p' → follows symbols p → follows symbols p'.
Proof.
  unfold tasks_follow. intros Hstep Hf.
  assert (∀ i s st st', tasks p !! i = Some (s, st) →
            (∀ res, st' = Resolved res → res = fetch s) →
            Forall2 (λ s t, t.1 = s ∧ ∀ res, t.2 = Resolved res → res = fetch s)
              symbols (<[i := (s, st')]> (tasks p))) as Hins.
  { intros i s st st' Hi Hres.
    destruct (Forall2_lookup_r _ _ _ _ _ Hf Hi) as (s' & Hs' & Hname & _).
    cbn in Hname. subst s'.
    rewrite <- (list_insert_id symbols i s Hs'). apply Forall2_insert; [exact Hf|].
    split; [reflexivity | exact Hres]. }
  destruct a as [i | i]; cbn in Hstep.
  - destruct (tasks p !! i) as [[s [| |res]]|] eqn:Hi; try discriminate.
    destruct (sem_value p); [discriminate|]. injection Hstep as <-. cbn.
    eapply Hins; [exact Hi | discriminate].
  - destruct (tasks p !! i) as [[s [| |res]]|] eqn:Hi; try discriminate.
    injection Hstep as <-. cbn. eapply Hins; [exact Hi | congruence].
Qed.

Lemma run_invariants symbols sched p p' :
  exec sched p = Some p' →
  permits_accounted p ∧ follows symbols p →
  permits_accounted p' ∧ follows symbols p'.
Proof.
  revert p. induction sched as [|a sched IH]; intros p; cbn.
  - intros [= <-]. auto.
  - destruct (next a p) as [p1|] eqn:Hstep; [|discriminate]. cbn.
    intros Hrun [Hp Hf]. apply (IH p1 Hrun).
    split; [by eapply step_permits | by eapply step_follows].
Qed.

Lemma reachable_invariants symbols p :
  reach symbols p → permits_accounted p ∧ follows symbols p.
Proof.
  intros [sched Hrun]. eapply run_invariants; [exact Hrun|].
  split; [apply start_permits | apply start_follows].
Qed.

Lemma gather_all_resolved p res :
  gather p = Some res → outstanding p = 0 ∧ waiting p = 0.
Proof.
  unfold gather, outstanding, waiting. intros H. apply mapM_Some in H.
  induction H as [|[s st] r l k Hr _ IH]; [auto|].
  unfold result_of in Hr. cbn in Hr. destruct st; try discriminate. exact IH.
Qed.

Lemma gather_pairs symbols p res :
  follows symbols p → gather p = Some res → res = map fetch symbols.
Proof.
  unfold tasks_follow, gather. intros Hf H. apply mapM_Some in H.
  revert res H. induction Hf as [|s [s' st] l k [Hname Hres] _ IH]; intros res H.
  - by apply Forall2_nil_inv_l in H.
  - apply Forall2_cons_inv_l in H as (r & res' & Hr & Hrest & ->).
    unfold result_of in Hr. cbn in Hr, Hname, Hres. subst s'.
    destruct st; try discriminate. injection Hr as ->.
    cbn. f_equal; [by apply Hres | by apply IH].
Qed.

Lemma resolved_tasks_gather (l : list (string * task_state)) :
  length (List.filter in_flight l) = 0 → length (List.filter is_waiting l) = 0 →
  is_Some (mapM result_of l).
Proof.
  induction l as [|[s st] l IH]; [by eexists|].
  intros H1 H2. destruct st as [| |res]; simpl in H1, H2; try discriminate.
  destruct (IH H1 H2) as [k Hk].
  exists (res :: k). apply mapM_Some. constructor; [reflexivity | by apply mapM_Some].
Qed.

(** No deadlock: from any state in which the permits are accounted for,
    some schedule brings every task to its result. *)
Lemma completion p :
  permits_accounted p → ∃ sched p', exec sched p = Some p' ∧ is_Some (gather p').
Proof.
  remember (2 * waiting p + outstanding p) as n eqn:Hn. revert p Hn.
  induction n as [n IH] using lt_wf_ind. intros p Hn Hperm.
  destruct (outstanding p) as [|k] eqn:Hout.
  - destruct (waiting p) as [|w] eqn:Hwait.
    + exists [], p. split; [reflexivity|]. by apply resolved_tasks_gather.
    + destruct (count_positive is_waiting (tasks p)) as (i & [s st] & Hi & Hw).
      { fold (waiting p). lia. }
      unfold is_waiting in Hw. cbn in Hw. destruct st; try discriminate.
      assert (sem_value p = 15) as Hsem by (unfold permits_accounted in Hperm; lia).
      assert (next (Acquire i) p = Some (Pool 14 (<[i := (s, InFlight)]> (tasks p))))
        as Hstep by (cbn; rewrite Hi, Hsem; reflexivity).
      pose proof (count_insert is_waiting _ _ _ (s, InFlight) Hi) as Hc1.
      pose proof (count_insert in_flight _ _ _ (s, InFlight) Hi) as Hc2.
      cbn in Hc1, Hc2. fold (waiting p) in Hc1. fold (outstanding p) in Hc2.
      destruct (IH (2 * w + 1)) with (p := Pool 14 (<[i := (s, InFlight)]> (tasks p)))
        as (sched & p' & Hrun & Hdone).
      * lia.
      * unfold waiting, outstanding. cbn [tasks]. lia.
      * by eapply step_permits.
      * exists (Acquire i :: sched), p'. split; [|exact Hdone].
        cbn [Collector.run]. rewrite Hstep. exact Hrun.
  - destruct (count_positive in_flight (tasks p)) as (i & [s st] & Hi & Hw).
    { fold (outstanding p). lia. }
    unfold in_flight in Hw. cbn in Hw. destruct st; try discriminate.
    assert (next (Finish i) p =
            Some (Pool (S (sem_value p)) (<[i := (s, Resolved (fetch s))]> (tasks p))))
      as Hstep by (cbn; rewrite Hi; reflexivity).
    pose proof (count_insert is_waiting _ _ _ (s, Resolved (fetch s)) Hi) as Hc1.
    pose proof (count_insert in_flight _ _ _ (s, Resolved (fetch s)) Hi) as Hc2.
    cbn in Hc1, Hc2. fold (waiting p) in Hc1. fold (outstanding p) in Hc2.
    destruct (IH (2 * waiting p + k))
      with (p := Pool (S (sem_value p)) (<[i := (s, Resolved (fetch s))]> (tasks p)))
      as (sched & p' & Hrun & Hdone).
    + lia.
    + unfold waiting, outstanding. cbn [tasks]. unfold waiting in Hc1. lia.
    + by eapply step_permits.
    + exists (Finish i :: sched), p'. split; [|exact Hdone].
      cbn [Collector.run]. rewrite Hstep. exact Hrun.
Qed.

End CollectorFacts.

(** C6: in every state the fan-out can reach, whatever the number of
    symbols and whatever the order in which the event loop runs the tasks,
    at most fifteen requests are outstanding; the semaphore's counter is
    fifteen minus that number, and with fifteen outstanding no further task
    is let through. *)
Theorem collector_never_exceeds_cap
    (float_of_str : string → option float) (oi_env : string → http_response)
    (symbols : list string) (p : Collector.pool) :
  Collector.reachable float_of_str oi_env symbols p →
  Collector.outstanding p ≤ 15 ∧
  Collector.sem_value p + Collector.outstanding p = 15 ∧
  (Collector.outstanding p = 15 →
   ∀ i, Collector.step float_of_str oi_env (Collector.Acquire i) p = None).
Proof.
  intros Hreach.
  destruct (reachable_invariants _ _ _ _ Hreach) as [Hperm _].
  unfold permits_accounted in Hperm.
  split; [lia|]. split; [exact Hperm|].
  intros Hfull i. assert (Collector.sem_value p = 0) as Hsem by lia.
  cbn. rewrite Hsem. destruct (Collector.tasks p !! i) as [[s []]|]; reflexivity.
Qed.

Lemma collector_never_exceeds_cap_witness :
  ∃ p, Collector.run Cycles.no_parse FanOut.all_ok FanOut.first_fifteen
         (Collector.gather_start FanOut.hundred) = Some p ∧
       Collector.outstanding p = 15 ∧
       Collector.outstanding p ≤ 15 ∧
       Collector.step Cycles.no_parse FanOut.all_ok (Collector.Acquire 15) p = None.
Proof.
  eexists. split; [vm_compute; reflexivity|]. split; [vm_compute; reflexivity|].
  match goal with |- Collector.outstanding ?p ≤ 15 ∧ _ =>
    destruct (collector_never_exceeds_cap Cycles.no_parse FanOut.all_ok FanOut.hundred p)
      as (Hle & _ & Hfull)
  end.
  - exists FanOut.first_fifteen. vm_compute. reflexivity.
  - split; [exact Hle|]. apply Hfull. vm_compute. reflexivity.
Defined.

(** C7: [gather] has a value only in a state where no task is waiting or
    in flight, every reachable state can be run on to such a state, and
    the dict built from the gathered pairs is [get_all_open_interest].
    That dict has an entry for every input symbol, holding what the
    symbol's own request resolved to; a request that fails (transport
    error, status other than 200, body that is not JSON or from which
    [float(data['openInterest'])] raises) gives [None]; and the entry of a
    symbol does not depend on the answers given for the other symbols. *)
Theorem collector_resolves_every_symbol
    (float_of_str : string → option float) (oi_env : string → http_response)
    (symbols : list string) :
  (∀ p, Collector.reachable float_of_str oi_env symbols p →
     (∀ res, Collector.gather p = Some res →
        Collector.outstanding p = 0 ∧ Collector.waiting p = 0 ∧
        py_dict res = get_all_open_interest float_of_str symbols oi_env) ∧
     (∃ sched p', Collector.run float_of_str oi_env sched p = Some p' ∧
                  is_Some (Collector.gather p'))) ∧
  (∀ s, s ∈ symbols →
     get_all_open_interest float_of_str symbols oi_env !! s =
     Some (fetch_open_interest float_of_str s (oi_env s)).2) ∧
  (∀ s, s ∈ symbols → oi_fetch_failed float_of_str (oi_env s) →
     get_all_open_interest float_of_str symbols oi_env !! s = Some None) ∧
  (∀ oi_env' s, s ∈ symbols → oi_env' s = oi_env s →
     get_all_open_interest float_of_str symbols oi_env' !! s =
     get_all_open_interest float_of_str symbols oi_env !! s).
Proof.
  split; [|split; [|split]].
  - intros p Hreach. destruct (reachable_invariants _ _ _ _ Hreach) as [Hperm Hfollow].
    split; [|by apply completion].
    intros res Hres. destruct (gather_all_resolved _ _ Hres) as [H1 H2].
    repeat split; try assumption.
    rewrite (gather_pairs _ _ _ _ _ Hfollow Hres). reflexivity.
  - intros s Hin. rewrite get_all_open_interest_lookup, decide_True by assumption.
    reflexivity.
  - intros s Hin Hfail. rewrite get_all_open_interest_lookup, decide_True by assumption.
    f_equal. by apply fetch_open_interest_None.
  - intros oi_env' s Hin Heq.
    rewrite !get_all_open_interest_lookup, !decide_True, Heq by assumption.
    reflexivity.
Qed.

Lemma collector_resolves_every_symbol_witness :
  get_all_open_interest Cycles.no_parse ["BTCUSDT"; "BADUSDT"; "ETHUSDT"] FanOut.one_bad
    !! "BADUSDT" = Some None ∧
  get_all_open_interest Cycles.no_parse ["BTCUSDT"; "BADUSDT"; "ETHUSDT"] FanOut.all_ok
    !! "ETHUSDT" =
  get_all_open_interest Cycles.no_parse ["BTCUSDT"; "BADUSDT"; "ETHUSDT"] FanOut.one_bad
    !! "ETHUSDT".
Proof.
  destruct (collector_resolves_every_symbol Cycles.no_parse FanOut.one_bad
              ["BTCUSDT"; "BADUSDT"; "ETHUSDT"]) as (_ & _ & Hfail & Hind).
  split.
  - apply Hfail.
    + apply list_elem_of_In. cbn. auto.
    + vm_compute. left. discriminate.
  - apply Hind.
    + apply list_elem_of_In. cbn. auto.
    + vm_compute. reflexivity.
Defined.

(** ** The bulk fetchers *)

Lemma get_all_prices_network_error fos : get_all_prices fos NetworkError = ∅.
Proof. reflexivity. Qed.

(** The price fetcher does not look at the status: an error answer gives
    the empty dict because its body is not a list of tickers. *)
Lemma get_all_prices_not_json fos st : get_all_prices fos (Response st None) = ∅.
Proof. reflexivity. Qed.

Lemma get_all_prices_error_object fos st kvs :
  get_all_prices fos (Response st (Some (JObj kvs))) = ∅.
Proof. destruct kvs; reflexivity. Qed.

Lemma get_funding_rates_network_error fos :
  get_funding_rates fos NetworkError = Some ∅.
Proof. reflexivity. Qed.

Lemma get_funding_rates_not_json fos : get_funding_rates fos (Response 200 None) = Some ∅.
Proof. reflexivity. Qed.

(** C9 fails on the code for the funding-rate fetcher: an answer with a
    status other than 200 raises nothing and is not 200, so the function
    runs off its end and returns [None], not an empty dict; the iteration
    that follows ends in the handler with [AttributeError] as soon as one
    symbol has a price and an open interest. *)
Theorem get_funding_rates_error_status_gives_None :
  (∀ fos body, get_funding_rates fos (Response 503 body) = None) ∧
  get_funding_rates Cycles.no_parse (Response 503 None) ≠ Some ∅ ∧
  main_iteration Cycles.no_parse
    {| universe := universe Cycles.ordinary;
       prices_start := prices_start Cycles.ordinary;
       oi_start := oi_start Cycles.ordinary;
       funding := Response 503 None;
       now := now Cycles.ordinary;
       csv_ok := true;
       prices_end := prices_end Cycles.ordinary;
       oi_end := oi_end Cycles.ordinary;
       webhook_url := None;
       post_ok := true |}
  = [LogError AttributeError; Sleep 10].
Proof.
  split; [reflexivity|]. split; [discriminate|]. vm_compute. reflexivity.
Qed.

(** * Further properties of the code *)

(** ** The symbol universe *)

Lemma is_jstr_true key j : is_jstr key j = true ↔ j = JStr key.
Proof.
  destruct j; cbn; try (split; [discriminate | congruence]).
  rewrite bool_decide_eq_true. split; congruence.
Qed.

Section UniverseFacts.
Variable upper : string → string.
Variable has_six_digits : string → bool.

Local Abbreviation select := (select_symbol upper has_six_digits).
Local Abbreviation entries_of := (symbol_entries upper has_six_digits).
Local Abbreviation passes_filter := (eligible upper has_six_digits).

Lemma select_symbol_Some item s : select item = Ok (Some s) ↔ passes_filter item s.
Proof.
  unfold select_symbol, eligible.
  destruct (subscript item "status") as [status|e]; cbn; [|split; [done | by intros [? _]]].
  destruct (is_jstr "TRADING" status) eqn:Hst.
  2:{ split; [done|]. intros ([= ->] & _). cbn in Hst. by rewrite bool_decide_eq_false in Hst. }
  apply is_jstr_true in Hst as ->.
  destruct (subscript item "symbol") as [[| | |sym| |]|e]; cbn;
    try (split; [done | by intros (_ & ? & _)]).
  destruct (ends_with "USDC" (upper sym)) eqn:Hend.
  { split; [done|]. intros (_ & [= ->] & ? & _). congruence. }
  destruct (subscript item "contractType") as [contract|e]; cbn;
    [|split; [done | by intros (_ & _ & _ & ? & _)]].
  destruct (is_jstr "PERPETUAL" contract) eqn:Hct.
  2:{ split; [done|]. intros (_ & _ & _ & [= ->] & _). cbn in Hct.
      by rewrite bool_decide_eq_false in Hct. }
  apply is_jstr_true in Hct as ->.
  destruct (has_six_digits sym) eqn:Hsix.
  - split; [done|]. intros (_ & [= ->] & _ & _ & ?). congruence.
  - split.
    + intros [= ->]. auto.
    + intros (_ & [= ->] & _). reflexivity.
Qed.

Lemma symbol_entries_elem items symbols s :
  entries_of items = Ok symbols →
  s ∈ symbols ↔ ∃ item, item ∈ items ∧ passes_filter item s.
Proof.
  revert symbols. induction items as [|item rest IH]; intros symbols; cbn.
  - intros [= <-]. split; [by intros ?%elem_of_nil|]. by intros (? & ?%elem_of_nil & _).
  - destruct (select item) as [kept|e] eqn:Hsel; [|discriminate]. cbn.
    destruct (entries_of rest) as [others|e]; [|discriminate]. cbn.
    intros [= <-]. rewrite elem_of_app, (IH others eq_refl). split.
    + intros [Hk | (item' & Hin & Hel)].
      * destruct kept as [k|]; cbn in Hk; [|by apply elem_of_nil in Hk].
        apply list_elem_of_singleton in Hk as ->. exists item. split; [by left|].
        by apply select_symbol_Some.
      * exists item'. split; [by right | done].
    + intros (item' & [-> | Hin]%elem_of_cons & Hel).
      * left. apply select_symbol_Some in Hel. rewrite Hel in Hsel.
        injection Hsel as <-. cbn. by left.
      * right. eauto.
Qed.

Lemma symbol_entries_raise items item e :
  item ∈ items → select item = Raise e → ∃ e', entries_of items = Raise e'.
Proof.
  intros Hin Hraise. induction items as [|x rest IH]; [by apply elem_of_nil in Hin|].
  cbn. apply elem_of_cons in Hin as [<- | Hin].
  - rewrite Hraise. eauto.
  - destruct (select x); [|eauto]. cbn. destruct (IH Hin) as [e' ->]. eauto.
Qed.

Lemma symbol_entries_total items :
  Forall (λ item, ∃ kept, select item = Ok kept) items →
  ∃ symbols, entries_of items = Ok symbols.
Proof.
  induction 1 as [|item rest [kept Hk] _ [symbols IH]]; [by eexists|].
  cbn. rewrite Hk, IH. cbn. eauto.
Qed.

Lemma symbol_entries_drop before item after :
  select item = Ok None →
  entries_of (before ++ item :: after) = entries_of (before ++ after).
Proof.
  intros Hnone. induction before as [|x before IH]; cbn.
  - rewrite Hnone. cbn. by destruct (entries_of after).
  - by rewrite IH.
Qed.

End UniverseFacts.

Lemma get_all_symbols_run_200 upper six doc entries items :
  subscript doc "symbols" = Ok entries → py_iter entries = Ok items →
  get_all_symbols_run upper six (Response 200 (Some doc)) =
  match symbol_entries upper six items with
  | Ok symbols => (symbols, None)
  | Raise e => ([], Some e)
  end.
Proof.
  intros Hsub Hiter. unfold get_all_symbols_run. cbn. rewrite Hsub. cbn.
  rewrite Hiter. cbn. by destruct (symbol_entries upper six items).
Qed.

Lemma get_all_symbols_run_inv upper six r s :
  s ∈ (get_all_symbols_run upper six r).1 →
  ∃ doc entries items symbols,
    r = Response 200 (Some doc) ∧ subscript doc "symbols" = Ok entries ∧
    py_iter entries = Ok items ∧ symbol_entries upper six items = Ok symbols ∧
    s ∈ symbols.
Proof.
  unfold get_all_symbols_run. destruct r as [|st body]; cbn; [by intros ?%elem_of_nil|].
  destruct (bool_decide (st = 200%Z)) eqn:Hst; cbn; [|by intros ?%elem_of_nil].
  apply bool_decide_eq_true in Hst as ->.
  destruct body as [doc|]; cbn; [|by intros ?%elem_of_nil].
  destruct (subscript doc "symbols") as [entries|] eqn:Hsub; cbn;
    [|by intros ?%elem_of_nil].
  destruct (py_iter entries) as [items|] eqn:Hiter; cbn; [|by intros ?%elem_of_nil].
  destruct (symbol_entries upper six items) as [symbols|] eqn:Hs; cbn;
    [|by intros ?%elem_of_nil].
  intros Hin. exists doc, entries, items, symbols. repeat split; assumption || reflexivity.
Qed.

(** X1: every symbol that [get_all_symbols] returns comes from an entry of
    a status-200 answer that has status TRADING, contract type PERPETUAL, a
    symbol whose upper-case form does not end in USDC and no run of six
    digits; and when no entry of the answer raises, every such entry's
    symbol is returned. *)
Theorem get_all_symbols_elem
    (upper : string → string) (has_six_digits : string → bool)
    (r : http_response) (s : string) :
  (s ∈ get_all_symbols upper has_six_digits r →
   ∃ doc entries items item,
     r = Response 200 (Some doc) ∧ subscript doc "symbols" = Ok entries ∧
     py_iter entries = Ok items ∧ item ∈ items ∧
     eligible upper has_six_digits item s) ∧
  (∀ doc entries items item,
     r = Response 200 (Some doc) → subscript doc "symbols" = Ok entries →
     py_iter entries = Ok items →
     Forall (λ x, ∃ kept, select_symbol upper has_six_digits x = Ok kept) items →
     item ∈ items → eligible upper has_six_digits item s →
     s ∈ get_all_symbols upper has_six_digits r).
Proof.
  split.
  - intros Hin. apply get_all_symbols_run_inv in Hin
      as (doc & entries & items & symbols & -> & Hsub & Hiter & Hsym & Hin).
    apply (symbol_entries_elem _ _ _ _ _ Hsym) in Hin as (item & Hitem & Hel).
    exists doc, entries, items, item. repeat split; assumption || reflexivity || apply Hel.
  - intros doc entries items item -> Hsub Hiter Hall Hitem Hel.
    unfold get_all_symbols. rewrite (get_all_symbols_run_200 _ _ _ _ _ Hsub Hiter).
    destruct (symbol_entries_total _ _ _ Hall) as [symbols Hsym]. rewrite Hsym. cbn.
    apply (symbol_entries_elem _ _ _ _ _ Hsym). eauto.
Qed.

Lemma get_all_symbols_elem_witness :
  "SOLUSDT" ∈ get_all_symbols Exchange.upper Exchange.has_six_digits
                (Exchange.info Exchange.entries).
Proof.
  destruct (get_all_symbols_elem Exchange.upper Exchange.has_six_digits
              (Exchange.info Exchange.entries) "SOLUSDT") as [_ H].
  apply (H (JObj [("symbols", JArr Exchange.entries)]) (JArr Exchange.entries)
           Exchange.entries (Exchange.entry "SOLUSDT" "TRADING" "PERPETUAL")).
  - reflexivity.
  - vm_compute. reflexivity.
  - reflexivity.
  - repeat constructor; eexists; vm_compute; reflexivity.
  - apply list_elem_of_In. cbn. auto 10.
  - repeat split; vm_compute; reflexivity.
Defined.

(** X2: [get_all_symbols] returns the empty list on every failure: a
    transport error or an undecodable body (logged), a status other than
    200 (not logged), and an answer in which a single entry raises, for
    instance one that is TRADING but has no symbol, however many good
    entries surround it. *)
Theorem get_all_symbols_failures
    (upper : string → string) (has_six_digits : string → bool) :
  get_all_symbols_run upper has_six_digits NetworkError = ([], Some ConnectionError) ∧
  get_all_symbols_run upper has_six_digits (Response 200 None)
    = ([], Some JSONDecodeError) ∧
  (∀ st body, st ≠ 200%Z →
     get_all_symbols_run upper has_six_digits (Response st body) = ([], None)) ∧
  (∀ doc entries items item e,
     subscript doc "symbols" = Ok entries → py_iter entries = Ok items →
     item ∈ items → select_symbol upper has_six_digits item = Raise e →
     ∃ e', get_all_symbols_run upper has_six_digits (Response 200 (Some doc))
           = ([], Some e')).
Proof.
  split; [reflexivity|]. split; [reflexivity|]. split.
  - intros st body Hst. unfold get_all_symbols_run. cbn.
    by rewrite bool_decide_eq_false_2.
  - intros doc entries items item e Hsub Hiter Hin Hraise.
    rewrite (get_all_symbols_run_200 _ _ _ _ _ Hsub Hiter).
    destruct (symbol_entries_raise _ _ _ _ _ Hin Hraise) as [e' ->]. eauto.
Qed.

Lemma get_all_symbols_failures_witness :
  ∃ e', get_all_symbols_run Exchange.upper Exchange.has_six_digits
          (Exchange.info (Exchange.entries ++ [JObj [("status", JStr "TRADING")]]))
        = ([], Some e').
Proof.
  destruct (get_all_symbols_failures Exchange.upper Exchange.has_six_digits)
    as (_ & _ & _ & H).
  eapply (H _ _ _ (JObj [("status", JStr "TRADING")]));
    [vm_compute; reflexivity | vm_compute; reflexivity | | vm_compute; reflexivity].
  apply list_elem_of_In. cbn. auto 10.
Defined.

(** X3: an entry whose status is not the string TRADING is dropped before
    any other field of it is read: with or without it, and whatever else
    it holds or lacks, the universe is the same. *)
Theorem get_all_symbols_skips_untraded
    (upper : string → string) (has_six_digits : string → bool)
    (before after : list json) (item status : json) :
  subscript item "status" = Ok status → status ≠ JStr "TRADING" →
  get_all_symbols upper has_six_digits
    (Response 200 (Some (JObj [("symbols", JArr (before ++ item :: after))]))) =
  get_all_symbols upper has_six_digits
    (Response 200 (Some (JObj [("symbols", JArr (before ++ after))]))).
Proof.
  intros Hst Hne. unfold get_all_symbols.
  rewrite (get_all_symbols_run_200 upper has_six_digits
             (JObj [("symbols", JArr (before ++ item :: after))])
             (JArr (before ++ item :: after)) (before ++ item :: after) eq_refl eq_refl).
  rewrite (get_all_symbols_run_200 upper has_six_digits
             (JObj [("symbols", JArr (before ++ after))])
             (JArr (before ++ after)) (before ++ after) eq_refl eq_refl).
  rewrite symbol_entries_drop; [reflexivity|].
  unfold select_symbol. rewrite Hst. cbn.
  destruct (is_jstr "TRADING" status) eqn:H; [|reflexivity].
  by apply is_jstr_true in H.
Qed.

Lemma get_all_symbols_skips_untraded_witness :
  get_all_symbols Exchange.upper Exchange.has_six_digits
    (Exchange.info [Exchange.entry "BTCUSDT" "TRADING" "PERPETUAL"; Exchange.delisted;
                    Exchange.entry "SOLUSDT" "TRADING" "PERPETUAL"]) =
  get_all_symbols Exchange.upper Exchange.has_six_digits
    (Exchange.info [Exchange.entry "BTCUSDT" "TRADING" "PERPETUAL";
                    Exchange.entry "SOLUSDT" "TRADING" "PERPETUAL"]).
Proof.
  apply (get_all_symbols_skips_untraded Exchange.upper Exchange.has_six_digits
           [Exchange.entry "BTCUSDT" "TRADING" "PERPETUAL"]
           [Exchange.entry "SOLUSDT" "TRADING" "PERPETUAL"]
           Exchange.delisted (JStr "SETTLING")).
  - vm_compute. reflexivity.
  - discriminate.
Defined.

(** ** The bulk fetchers on well-formed and on damaged payloads *)

Lemma py_dict_skip {V} (pairs : list (string * V)) (m : gmap string V) s :
  s ∉ pairs.*1 → fold_left (λ m kv, <[kv.1 := kv.2]> m) pairs m !! s = m !! s.
Proof.
  revert m. induction pairs as [|[k v] pairs IH]; intros m Hs; [reflexivity|].
  cbn in Hs |- *. apply not_elem_of_cons in Hs as [Hne Hs].
  rewrite IH by assumption. by apply lookup_insert_ne.
Qed.

(** [dict(pairs)] holds, for a key, the value of its last pair. *)
Lemma py_dict_last {V} (before after : list (string * V)) s x :
  s ∉ after.*1 → py_dict (before ++ (s, x) :: after) !! s = Some x.
Proof.
  intros Hs. unfold py_dict. rewrite fold_left_app. cbn.
  rewrite py_dict_skip by assumption. apply lookup_insert_eq.
Qed.

Lemma py_dict_absent {V} (pairs : list (string * V)) s :
  s ∉ pairs.*1 → py_dict pairs !! s = None.
Proof. intros Hs. unfold py_dict. rewrite py_dict_skip by assumption. apply lookup_empty. Qed.

Section FetcherFacts.
Variable float_of_str : string → option float.

Local Abbreviation to_float := (py_float float_of_str).
Local Abbreviation reads := (reads_as float_of_str).
Local Abbreviation funding_reads := (funding_reads_as float_of_str).

Lemma store_entry_reads value_key item kv acc :
  reads value_key item kv →
  store_entry float_of_str "symbol" value_key item acc = Ok (<[kv.1 := kv.2]> acc).
Proof. intros [Hk Hv]. unfold store_entry. rewrite Hk. cbn. rewrite Hv. reflexivity. Qed.

Lemma price_entries_reads items pairs acc :
  Forall2 (reads "price") items pairs →
  price_entries float_of_str items acc =
  Ok (fold_left (λ m kv, <[kv.1 := kv.2]> m) pairs acc).
Proof.
  intros H. revert acc. induction H as [|item kv items pairs Hr _ IH]; intros acc.
  - reflexivity.
  - cbn. rewrite (store_entry_reads _ _ _ _ Hr). cbn. apply IH.
Qed.

Lemma price_entries_damaged items item acc :
  item ∈ items →
  (∀ m, ∃ e, store_entry float_of_str "symbol" "price" item m = Raise e) →
  ∃ e, price_entries float_of_str items acc = Raise e.
Proof.
  intros Hin Hbad. revert acc.
  induction items as [|x rest IH]; intros acc; [by apply elem_of_nil in Hin|].
  cbn. apply elem_of_cons in Hin as [<- | Hin].
  - destruct (Hbad acc) as [e ->]. eauto.
  - destruct (store_entry float_of_str "symbol" "price" x acc) as [m|e]; [|eauto].
    cbn. by apply IH.
Qed.

Lemma funding_entries_reads items opts acc :
  Forall2 funding_reads items opts →
  funding_entries float_of_str items acc =
  Ok (fold_left (λ m kv, <[kv.1 := kv.2]> m) (omap id opts) acc).
Proof.
  intros H. revert acc. induction H as [|item o items opts Hr _ IH]; intros acc.
  - reflexivity.
  - cbn [funding_entries]. destruct o as [kv|]; cbn in Hr.
    + destruct Hr as [Hin Hr]. rewrite Hin. cbn.
      rewrite (store_entry_reads _ _ _ _ Hr). cbn. apply IH.
    + rewrite Hr. cbn. apply IH.
Qed.

End FetcherFacts.

(** X4: [get_all_prices] on a list of tickers, each with a string symbol
    and a price that [float()] accepts, returns the dict of the
    (symbol, price) pairs whatever the HTTP status is; a symbol listed more
    than once keeps its last price and a symbol not listed is absent. *)
Theorem get_all_prices_round_trip
    (float_of_str : string → option float) (st : Z) (items : list json)
    (pairs : list (string * float)) :
  Forall2 (reads_as float_of_str "price") items pairs →
  get_all_prices float_of_str (Response st (Some (JArr items))) = py_dict pairs ∧
  (∀ before after s x, pairs = before ++ (s, x) :: after → s ∉ after.*1 →
     get_all_prices float_of_str (Response st (Some (JArr items))) !! s = Some x) ∧
  (∀ s, s ∉ pairs.*1 →
     get_all_prices float_of_str (Response st (Some (JArr items))) !! s = None).
Proof.
  intros H.
  assert (get_all_prices float_of_str (Response st (Some (JArr items))) = py_dict pairs)
    as ->.
  { unfold get_all_prices. cbn. rewrite (price_entries_reads _ _ _ _ H). reflexivity. }
  split; [reflexivity|]. split.
  - intros before after s x -> Hs. by apply py_dict_last.
  - apply py_dict_absent.
Qed.

Lemma get_all_prices_round_trip_witness :
  get_all_prices Cycles.no_parse
    (Response 429 (Some (JArr [Cycles.ticker "BTCUSDT" 100; Cycles.ticker "ETHUSDT" 50;
                               Cycles.ticker "BTCUSDT" 101])))
    !! "BTCUSDT" = Some 101%float.
Proof.
  destruct (get_all_prices_round_trip Cycles.no_parse 429
              [Cycles.ticker "BTCUSDT" 100; Cycles.ticker "ETHUSDT" 50;
               Cycles.ticker "BTCUSDT" 101]
              [("BTCUSDT", 100%float); ("ETHUSDT", 50%float); ("BTCUSDT", 101%float)])
    as (_ & Hlast & _).
  - repeat constructor.
  - apply (Hlast [("BTCUSDT", 100%float); ("ETHUSDT", 50%float)] []); [reflexivity|].
    apply not_elem_of_nil.
Defined.

(** X5: one damaged ticker empties the whole price dict: if any item of
    the list has no symbol, or no price that [float()] accepts, then
    [get_all_prices] returns the empty dict, whatever the other items are. *)
Theorem get_all_prices_all_or_nothing
    (float_of_str : string → option float) (st : Z) (items : list json)
    (item : json) :
  item ∈ items →
  (∃ e, subscript item "symbol" = Raise e) ∨
  (∃ e, subscript item "price" ≫= py_float float_of_str = Raise e) →
  get_all_prices float_of_str (Response st (Some (JArr items))) = ∅.
Proof.
  intros Hin Hbad. unfold get_all_prices. cbn.
  destruct (price_entries_damaged float_of_str items item ∅ Hin) as [e ->];
    [|reflexivity].
  intros m. unfold store_entry. destruct Hbad as [[e He] | [e He]].
  - rewrite He. eauto.
  - destruct (subscript item "symbol"); cbn; [rewrite He|]; eauto.
Qed.

Lemma get_all_prices_all_or_nothing_witness :
  get_all_prices Cycles.no_parse
    (Response 200 (Some (JArr [Cycles.ticker "BTCUSDT" 100;
                               JObj [("symbol", JStr "ETHUSDT"); ("price", JNull)];
                               Cycles.ticker "SOLUSDT" 20]))) = ∅.
Proof.
  apply (get_all_prices_all_or_nothing Cycles.no_parse 200 _
           (JObj [("symbol", JStr "ETHUSDT"); ("price", JNull)])).
  - apply list_elem_of_In. cbn. auto.
  - right. exists TypeError. vm_compute. reflexivity.
Defined.

(** X6: [get_funding_rates] returns [None] exactly when an answer arrived
    whose status is not 200; in every other case, failures included, it
    returns a dict. *)
Theorem get_funding_rates_None_iff
    (float_of_str : string → option float) (r : http_response) :
  get_funding_rates float_of_str r = None ↔
  ∃ st body, r = Response st body ∧ st ≠ 200%Z.
Proof.
  unfold get_funding_rates, try_except. destruct r as [|st body]; cbn.
  - split; [discriminate|]. by intros (? & ? & ? & _).
  - destruct (bool_decide (st = 200%Z)) eqn:Hst; cbn.
    + apply bool_decide_eq_true in Hst.
      split; [|by intros (? & ? & [= <- _] & ?)].
      destruct body as [doc|]; cbn; [|discriminate].
      destruct (py_iter doc) as [items|]; cbn; [|discriminate].
      destruct (funding_entries float_of_str items ∅); cbn; discriminate.
    + apply bool_decide_eq_false in Hst. split; [eauto | reflexivity].
Qed.

(** X7: with status 200, a funding entry without the key lastFundingRate
    is skipped and does not spoil the rest: the result is the dict of the
    entries that have the key. *)
Theorem get_funding_rates_skips_incomplete
    (float_of_str : string → option float) (items : list json)
    (opts : list (option (string * float))) :
  Forall2 (funding_reads_as float_of_str) items opts →
  get_funding_rates float_of_str (Response 200 (Some (JArr items))) =
  Some (py_dict (omap id opts)).
Proof.
  intros H. unfold get_funding_rates. cbn.
  rewrite (funding_entries_reads _ _ _ _ H). reflexivity.
Qed.

Lemma get_funding_rates_skips_incomplete_witness :
  get_funding_rates Cycles.no_parse
    (Response 200 (Some (JArr [Cycles.premium "BTCUSDT" 0.0001;
                               JObj [("symbol", JStr "ETHUSDT")];
                               Cycles.premium "SOLUSDT" 0.0002]))) =
  Some (py_dict [("BTCUSDT", 0.0001%float); ("SOLUSDT", 0.0002%float)]).
Proof.
  apply (get_funding_rates_skips_incomplete Cycles.no_parse _
           [Some ("BTCUSDT", 0.0001%float); None; Some ("SOLUSDT", 0.0002%float)]).
  repeat constructor.
Defined.

Lemma get_funding_rates_None_iff_witness :
  get_funding_rates Cycles.no_parse (Response 503 None) = None.
Proof.
  apply (get_funding_rates_None_iff Cycles.no_parse (Response 503 None)).
  exists 503%Z, None. split; [reflexivity | discriminate].
Defined.

(** ** The collector: termination and small universes *)

Section CollectorProgress.
Import Collector.
Variable float_of_str : string → option float.
Variable oi_env : string → http_response.

Local Abbreviation next := (step float_of_str oi_env).
Local Abbreviation exec := (run float_of_str oi_env).

Lemma step_steps_left a p p' : next a p = Some p' → steps_left p' + 1 = steps_left p.
Proof.
  unfold steps_left, waiting, outstanding. destruct a as [i | i]; cbn.
  - destruct (tasks p !! i) as [[s [| |res]]|] eqn:Hi; try discriminate.
    destruct (sem_value p); [discriminate|]. intros [= <-]. cbn.
    pose proof (count_insert is_waiting _ _ _ (s, InFlight) Hi) as H1.
    pose proof (count_insert in_flight _ _ _ (s, InFlight) Hi) as H2.
    cbn in H1, H2. lia.
  - destruct (tasks p !! i) as [[s [| |res]]|] eqn:Hi; try discriminate.
    intros [= <-]. cbn.
    pose proof (count_insert is_waiting _ _ _
                  (s, Resolved (fetch_open_interest float_of_str s (oi_env s))) Hi) as H1.
    pose proof (count_insert in_flight _ _ _
                  (s, Resolved (fetch_open_interest float_of_str s (oi_env s))) Hi) as H2.
    cbn in H1, H2. lia.
Qed.

Lemma run_steps_left sched p p' :
  exec sched p = Some p' → steps_left p' + length sched = steps_left p.
Proof.
  revert p. induction sched as [|a sched IH]; intros p Hrun; cbn [Collector.run] in Hrun.
  - injection Hrun as <-. cbn [length]. lia.
  - destruct (next a p) as [p1|] eqn:Hstep; [|discriminate].
    apply IH in Hrun. apply step_steps_left in Hstep. cbn [length]. lia.
Qed.

Lemma start_steps_left symbols : steps_left (gather_start symbols) = 2 * length symbols.
Proof.
  unfold steps_left, waiting, outstanding. cbn.
  induction symbols as [|s l IH]; [reflexivity|]. cbn in IH |- *. lia.
Qed.

Lemma gather_iff_no_steps_left p : is_Some (gather p) ↔ steps_left p = 0.
Proof.
  unfold steps_left. split.
  - intros [res Hres]. destruct (gather_all_resolved _ _ Hres). lia.
  - intros H. apply resolved_tasks_gather; fold (outstanding p) (waiting p); lia.
Qed.

Lemma counts_bounded (l : list (string * task_state)) :
  length (List.filter in_flight l) + length (List.filter is_waiting l) ≤ length l.
Proof.
  induction l as [|[s [| |res]] l IH]; cbn; [lia | cbn in IH; lia ..].
Qed.

Lemma count_lookup {A} (f : A → bool) (l : list A) i x :
  l !! i = Some x → f x = true → 0 < length (List.filter f l).
Proof.
  revert i. induction l as [|a l IH]; intros [|i] Hl Hf; try discriminate.
  - injection Hl as ->. cbn. rewrite Hf. cbn. lia.
  - cbn in Hl |- *. specialize (IH i Hl Hf). destruct (f a); cbn; lia.
Qed.

End CollectorProgress.

(** X8: the fan-out terminates, whatever the scheduling: a run from the
    start never has more than two steps per symbol (one to pass the
    semaphore, one to finish the request), and [gather] has its value
    exactly when that many steps have been taken. *)
Theorem collector_finishes_in_two_steps_per_symbol
    (float_of_str : string → option float) (oi_env : string → http_response)
    (symbols : list string) (sched : list Collector.action) (p : Collector.pool) :
  Collector.run float_of_str oi_env sched (Collector.gather_start symbols) = Some p →
  length sched ≤ 2 * length symbols ∧
  (is_Some (Collector.gather p) ↔ length sched = 2 * length symbols).
Proof.
  intros Hrun. apply run_steps_left in Hrun. rewrite start_steps_left in Hrun.
  split; [lia|]. rewrite gather_iff_no_steps_left. lia.
Qed.

Lemma collector_finishes_in_two_steps_per_symbol_witness :
  length FanOut.first_fifteen ≤ 2 * length FanOut.hundred.
Proof.
  destruct (Collector.run Cycles.no_parse FanOut.all_ok FanOut.first_fifteen
              (Collector.gather_start FanOut.hundred)) as [p|] eqn:Hrun.
  - apply (collector_finishes_in_two_steps_per_symbol _ _ _ _ _ Hrun).
  - vm_compute in Hrun. discriminate.
Defined.

(** X9: with at most fifteen symbols the semaphore never holds a task
    back: in every reachable state a waiting task can be let through at
    once. *)
Theorem collector_small_universe_never_waits
    (float_of_str : string → option float) (oi_env : string → http_response)
    (symbols : list string) (p : Collector.pool) (i : nat) (s : string) :
  length symbols ≤ 15 →
  Collector.reachable float_of_str oi_env symbols p →
  Collector.tasks p !! i = Some (s, Collector.Waiting) →
  is_Some (Collector.step float_of_str oi_env (Collector.Acquire i) p).
Proof.
  intros Hlen Hreach Hi.
  destruct (reachable_invariants _ _ _ _ Hreach) as [Hperm Hfollow].
  unfold permits_accounted, Collector.outstanding in Hperm.
  apply Forall2_length in Hfollow.
  pose proof (counts_bounded (Collector.tasks p)) as Hb.
  pose proof (count_lookup Collector.is_waiting _ _ _ Hi eq_refl) as Hw.
  cbn. rewrite Hi. destruct (Collector.sem_value p) as [|n] eqn:Hsem; [lia | eauto].
Qed.

Lemma collector_small_universe_never_waits_witness :
  is_Some (Collector.step Cycles.no_parse FanOut.all_ok (Collector.Acquire 1)
             (Collector.Pool 14 [("BTCUSDT", Collector.InFlight);
                                 ("ETHUSDT", Collector.Waiting)])).
Proof.
  apply (collector_small_universe_never_waits Cycles.no_parse FanOut.all_ok
           ["BTCUSDT"; "ETHUSDT"] _ 1 "ETHUSDT").
  - cbn. lia.
  - exists [Collector.Acquire 0]. reflexivity.
  - reflexivity.
Defined.

(** X10: the keys of the dict that [get_all_open_interest] returns are
    exactly the input symbols (a repeated symbol gives one key). *)
Theorem get_all_open_interest_keys
    (float_of_str : string → option float) (symbols : list string)
    (oi_env : string → http_response) :
  dom (get_all_open_interest float_of_str symbols oi_env) = list_to_set symbols.
Proof.
  apply set_eq. intros s.
  rewrite elem_of_dom, get_all_open_interest_lookup, elem_of_list_to_set.
  destruct (decide (s ∈ symbols)); split; done.
Qed.

(** ** The detector: order, funding, colours, exceptions *)

Section DetectorMore.
Variables prev_prices curr_prices : gmap string float.
Variables prev_oi curr_oi : gmap string (option float).
Variable funding_rates : option (gmap string float).

Local Abbreviation body_at :=
  (detect_symbol prev_prices curr_prices prev_oi curr_oi funding_rates).
Local Abbreviation loop_from :=
  (detect_from prev_prices curr_prices prev_oi curr_oi funding_rates).
Local Abbreviation record_of :=
  (anomaly_of prev_prices curr_prices prev_oi curr_oi funding_rates).
Local Abbreviation passes := (passes_check prev_prices curr_prices prev_oi curr_oi).

Lemma titles_sublist symbols : (title <$> omap record_of symbols) `sublist_of` symbols.
Proof.
  induction symbols as [|s rest IH]; [constructor|].
  cbn [omap list_omap]. destruct (record_of s) as [r|] eqn:Hr.
  - cbn. rewrite (anomaly_of_title _ _ _ _ _ _ _ Hr). by apply sublist_skip.
  - by apply sublist_cons.
Qed.

(** Where the loop stops and why. *)
Lemma detect_from_Raise symbols embeds e :
  loop_from symbols embeds = Raise e →
  (e = ZeroDivisionError ∧
   ∃ s p, s ∈ symbols ∧ passes s ∧ prev_prices !! s = Some p ∧
          (p =? 0)%float = true) ∨
  (e = AttributeError ∧ funding_rates = None ∧ ∃ s, s ∈ symbols ∧ passes s).
Proof.
  revert embeds. induction symbols as [|x rest IH]; intros embeds; [discriminate|].
  cbn [detect_from].
  assert (∀ mid, loop_from rest mid = Raise e →
            (e = ZeroDivisionError ∧
             ∃ s p, s ∈ x :: rest ∧ passes s ∧ prev_prices !! s = Some p ∧
                    (p =? 0)%float = true) ∨
            (e = AttributeError ∧ funding_rates = None ∧
             ∃ s, s ∈ x :: rest ∧ passes s)) as Hrest.
  { intros mid Hmid. destruct (IH mid Hmid) as [(-> & s & p & Hin & H) | (-> & Hf & s & Hin & H)].
    - left. split; [reflexivity|]. exists s, p. split; [by right | exact H].
    - right. split; [reflexivity|]. split; [exact Hf|]. exists s. split; [by right | exact H]. }
  destruct (decide (passes x)) as [Hpass | Hfail].
  - pose proof Hpass as ([p Hp] & _).
    rewrite (detect_symbol_pass _ _ _ _ _ embeds x p Hpass Hp).
    destruct (p =? 0)%float eqn:Hz.
    + intros [= <-]. left. split; [reflexivity|]. exists x, p.
      split; [by left | auto].
    + destruct funding_rates as [fr|] eqn:Hfr.
      * rewrite bind_Ok. apply Hrest.
      * intros [= <-]. right. split; [reflexivity|]. split; [reflexivity|].
        exists x. split; [by left | exact Hpass].
  - rewrite detect_symbol_skip, bind_Ok by assumption. apply Hrest.
Qed.

End DetectorMore.

(** Without a funding dict the loop cannot get past a symbol that passes
    the check. *)
Lemma detect_from_no_dict pp cp po co symbols embeds s :
  s ∈ symbols → passes_check pp cp po co s →
  ∃ e, detect_from pp cp po co None symbols embeds = Raise e.
Proof.
  intros Hin Hpass. revert embeds.
  induction symbols as [|x rest IH]; intros embeds; [by apply elem_of_nil in Hin|].
  cbn [detect_from]. destruct (decide (passes_check pp cp po co x)) as [Hx | Hx].
  - pose proof Hx as ([p Hp] & _). rewrite (detect_symbol_pass _ _ _ _ _ embeds x p Hx Hp).
    destruct (p =? 0)%float; eauto.
  - rewrite detect_symbol_skip, bind_Ok by assumption.
    apply elem_of_cons in Hin as [-> | Hin]; [done | by apply IH].
Qed.

Lemma anomaly_of_funding pp cp po co funding s r :
  anomaly_of pp cp po co funding s = Some r →
  embed_funding r = default 0%float (funding ≫= (.!! s)).
Proof.
  unfold anomaly_of.
  repeat match goal with |- context [match ?x with _ => _ end] => destruct x end;
    try discriminate.
  intros [= <-]. reflexivity.
Qed.

(** X11: the records come out in universe order: their symbols form a
    subsequence of the universe, so there are no more records than symbols
    and, when no symbol is listed twice, no symbol has two records. *)
Theorem detect_keeps_universe_order
    (prev_prices curr_prices : gmap string float)
    (prev_oi curr_oi : gmap string (option float))
    (funding_rates : option (gmap string float))
    (symbols : list string) (embeds : list embed) :
  detect prev_prices curr_prices prev_oi curr_oi funding_rates symbols = Ok embeds →
  (title <$> embeds) `sublist_of` symbols ∧
  length embeds ≤ length symbols ∧
  (NoDup symbols → NoDup (title <$> embeds)).
Proof.
  unfold detect. intros H. apply detect_from_Ok in H. rewrite app_nil_l in H. subst.
  pose proof (titles_sublist prev_prices curr_prices prev_oi curr_oi funding_rates symbols)
    as Hsub.
  split; [exact Hsub|]. split.
  - apply sublist_length in Hsub. by rewrite length_fmap in Hsub.
  - intros Hnd. by eapply sublist_NoDup.
Qed.

Lemma detect_keeps_universe_order_witness :
  (title <$> [Scenario.btc]) `sublist_of` ["ETHUSDT"; "BTCUSDT"; "GONEUSDT"].
Proof.
  apply (detect_keeps_universe_order Scenario.prev_prices Scenario.curr_prices
           Scenario.prev_oi Scenario.curr_oi (Some Scenario.funding_rates)
           ["ETHUSDT"; "BTCUSDT"; "GONEUSDT"] [Scenario.btc]).
  vm_compute. reflexivity.
Defined.

(** X12: the funding rate shown in a record is the one fetched at the
    start of the cycle for that symbol, and 0 when the funding dict has no
    entry for it; a record is only ever produced with a funding dict at
    hand. *)
Theorem record_funding_is_start_funding_or_zero
    (prev_prices curr_prices : gmap string float)
    (prev_oi curr_oi : gmap string (option float))
    (funding_rates : option (gmap string float))
    (symbols : list string) (embeds : list embed) (r : embed) :
  detect prev_prices curr_prices prev_oi curr_oi funding_rates symbols = Ok embeds →
  r ∈ embeds →
  ∃ fr, funding_rates = Some fr ∧
        embed_funding r = default 0%float (fr !! title r) ∧
        (fr !! title r = None → embed_funding r = 0%float).
Proof.
  intros Hd Hr. destruct (detect_records _ _ _ _ _ _ _ _ Hd Hr) as [Hin Ha].
  pose proof (anomaly_of_passes _ _ _ _ _ _ _ Ha) as Hpass.
  destruct funding_rates as [fr|] eqn:Hfr.
  - exists fr. apply anomaly_of_funding in Ha. cbn in Ha.
    split; [reflexivity|]. split; [exact Ha|]. intros Hnone. by rewrite Ha, Hnone.
  - exfalso. unfold detect in Hd.
    destruct (detect_from_no_dict _ _ _ _ _ [] _ Hin Hpass) as [e He]. congruence.
Qed.

Lemma record_funding_is_start_funding_or_zero_witness :
  ∃ fr, Some Scenario.funding_rates = Some fr ∧
        embed_funding Scenario.btc = default 0%float (fr !! title Scenario.btc) ∧
        (fr !! title Scenario.btc = None → embed_funding Scenario.btc = 0%float).
Proof.
  apply (record_funding_is_start_funding_or_zero Scenario.prev_prices
           Scenario.curr_prices Scenario.prev_oi Scenario.curr_oi
           (Some Scenario.funding_rates) ["ETHUSDT"; "BTCUSDT"] [Scenario.btc]).
  - vm_compute. reflexivity.
  - apply list_elem_of_In. cbn. auto.
Defined.

(** X13: the colour of a record matches its direction: green (0x00FF00)
    exactly for bullish-accumulation, red (0xFF0000) exactly for
    bearish-accumulation and yellow (0xFFFF00) exactly for
    flat-accumulation. *)
Theorem record_colour_matches_direction
    (prev_prices curr_prices : gmap string float)
    (prev_oi curr_oi : gmap string (option float))
    (funding_rates : option (gmap string float))
    (symbols : list string) (embeds : list embed) (r : embed) :
  detect prev_prices curr_prices prev_oi curr_oi funding_rates symbols = Ok embeds →
  r ∈ embeds →
  (color r = 0x00FF00%Z ↔ embed_direction r = bullish_accumulation) ∧
  (color r = 0xFF0000%Z ↔ embed_direction r = bearish_accumulation) ∧
  (color r = 0xFFFF00%Z ↔ embed_direction r = flat_accumulation).
Proof.
  intros Hd Hr. destruct (detect_records _ _ _ _ _ _ _ _ Hd Hr) as [_ Ha].
  apply anomaly_of_fields in Ha
    as (p & c & o & o' & _ & _ & _ & _ & _ & _ & -> & -> & _).
  unfold color_of, direction_of.
  destruct (0.3 <? embed_prc_chg r)%float; [repeat split; done|].
  destruct (embed_prc_chg r <? -0.3)%float; repeat split; done.
Qed.

Lemma record_colour_matches_direction_witness :
  color Scenario.btc = 0x00FF00%Z ↔ embed_direction Scenario.btc = bullish_accumulation.
Proof.
  apply (record_colour_matches_direction Scenario.prev_prices
           Scenario.curr_prices Scenario.prev_oi Scenario.curr_oi
           (Some Scenario.funding_rates) ["ETHUSDT"; "BTCUSDT"] [Scenario.btc]).
  - vm_compute. reflexivity.
  - apply list_elem_of_In. cbn. auto.
Defined.

(** X14: the detector raises only in two ways: [ZeroDivisionError], and
    then some symbol of the universe that passes the check has a previous
    price equal to zero; or [AttributeError], and then the funding rates
    are [None] and some symbol of the universe passes the check. *)
Theorem detect_raises_only_two_ways
    (prev_prices curr_prices : gmap string float)
    (prev_oi curr_oi : gmap string (option float))
    (funding_rates : option (gmap string float))
    (symbols : list string) (e : exn) :
  detect prev_prices curr_prices prev_oi curr_oi funding_rates symbols = Raise e →
  (e = ZeroDivisionError ∧
   ∃ s p, s ∈ symbols ∧ passes_check prev_prices curr_prices prev_oi curr_oi s ∧
          prev_prices !! s = Some p ∧ (p =? 0)%float = true) ∨
  (e = AttributeError ∧ funding_rates = None ∧
   ∃ s, s ∈ symbols ∧ passes_check prev_prices curr_prices prev_oi curr_oi s).
Proof. unfold detect. apply detect_from_Raise. Qed.

Lemma detect_raises_only_two_ways_witness :
  (AttributeError = ZeroDivisionError ∧
   ∃ s p, s ∈ ["BTCUSDT"] ∧
          passes_check Scenario.prev_prices Scenario.curr_prices Scenario.prev_oi
            Scenario.curr_oi s ∧
          Scenario.prev_prices !! s = Some p ∧ (p =? 0)%float = true) ∨
  (AttributeError = AttributeError ∧ @None (gmap string float) = None ∧
   ∃ s, s ∈ ["BTCUSDT"] ∧
        passes_check Scenario.prev_prices Scenario.curr_prices Scenario.prev_oi
          Scenario.curr_oi s).
Proof.
  apply (detect_raises_only_two_ways Scenario.prev_prices Scenario.curr_prices
           Scenario.prev_oi Scenario.curr_oi None ["BTCUSDT"] AttributeError).
  vm_compute. reflexivity.
Defined.

(** ** One iteration: what surrounds a webhook call *)

Lemma get_funding_rates_not_200 fos st body :
  st ≠ 200%Z → get_funding_rates fos (Response st body) = None.
Proof.
  intros Hst. unfold get_funding_rates, try_except. cbn.
  by rewrite bool_decide_eq_false_2.
Qed.

(** An iteration that made a webhook call went through every stage. *)
Lemma post_inv fos e url es :
  Post url es ∈ main_iteration fos e →
  ∃ rows embeds,
    data_start (universe e) (prev_prices_of fos e) (prev_oi_of fos e)
      (funding_rates_of fos e) = Ok rows ∧
    detect (prev_prices_of fos e) (curr_prices_of fos e) (prev_oi_of fos e)
      (curr_oi_of fos e) (funding_rates_of fos e) (universe e) = Ok embeds ∧
    embeds ≠ [] ∧ es = take 10 embeds ∧ url = webhook_url e ∧
    main_iteration fos e =
      SaveCsv rows (now e) :: Sleep CHECK_INTERVAL :: Post url es ::
      (if post_ok e then [LogInfo (length embeds)] else [LogError ClientError; Sleep 10]).
Proof.
  rewrite main_iteration_cases.
  destruct (data_start _ _ _ _) as [rows|ex]; [|intros H; event_cases H].
  destruct (csv_ok e); [|intros H; event_cases H].
  destruct (detect _ _ _ _ _ _) as [[|r embeds]|ex]; [intros H; event_cases H | |
    intros H; event_cases H].
  intros H. exists rows, (r :: embeds).
  assert (url = webhook_url e ∧ es = take 10 (r :: embeds)) as [-> ->].
  { destruct (post_ok e); event_cases H; injection H as -> ->; auto. }
  repeat split; done.
Qed.

(** X15: with an empty universe (which is what [get_all_symbols] gives on
    any failure) an iteration whose write goes through saves an empty
    snapshot, sleeps 45 seconds and logs zero anomalies, whatever the
    price, funding and open-interest answers are, a funding answer that
    yields [None] included; nothing is posted. *)
Theorem empty_universe_iteration (float_of_str : string → option float) (e : env) :
  universe e = [] → csv_ok e = true →
  main_iteration float_of_str e = [SaveCsv [] (now e); Sleep 45; LogInfo 0].
Proof.
  intros Hu Hcsv. rewrite main_iteration_cases, Hu, Hcsv. reflexivity.
Qed.

Lemma empty_universe_iteration_witness :
  main_iteration Cycles.no_parse
    {| universe := get_all_symbols Exchange.upper Exchange.has_six_digits NetworkError;
       prices_start := NetworkError; oi_start := λ _, NetworkError;
       funding := Response 503 None; now := "2026/01/01 08:00:00"; csv_ok := true;
       prices_end := NetworkError; oi_end := λ _, NetworkError;
       webhook_url := None; post_ok := true |}
  = [SaveCsv [] "2026/01/01 08:00:00"; Sleep 45; LogInfo 0].
Proof. apply empty_universe_iteration; reflexivity. Defined.

(** X16: when the funding answer has a status other than 200 and some
    symbol of the universe has a start price and a non-absent, non-zero
    start open interest, the iteration does nothing but log
    [AttributeError] and sleep ten seconds: no snapshot is saved, the
    45-second wait and the detector are never reached. *)
Theorem funding_error_status_aborts_iteration
    (float_of_str : string → option float) (e : env) (st : Z) (body : option json)
    (s : string) (p o : float) :
  funding e = Response st body → st ≠ 200%Z →
  s ∈ universe e →
  prev_prices_of float_of_str e !! s = Some p →
  prev_oi_of float_of_str e !! s = Some (Some o) → float_truthy o = true →
  main_iteration float_of_str e = [LogError AttributeError; Sleep 10].
Proof.
  intros Hf Hst Hin Hp Ho Ht. rewrite main_iteration_cases.
  unfold funding_rates_of. rewrite Hf, get_funding_rates_not_200 by assumption.
  by rewrite (data_start_no_dict _ _ _ s p o Hin Hp (dict_get_Some _ _ _ Ho) Ht).
Qed.

Lemma funding_error_status_aborts_iteration_witness :
  main_iteration Cycles.no_parse
    {| universe := universe Cycles.ordinary;
       prices_start := prices_start Cycles.ordinary;
       oi_start := oi_start Cycles.ordinary;
       funding := Response 429 None;
       now := now Cycles.ordinary; csv_ok := true;
       prices_end := prices_end Cycles.ordinary; oi_end := oi_end Cycles.ordinary;
       webhook_url := None; post_ok := true |}
  = [LogError AttributeError; Sleep 10].
Proof.
  apply (funding_error_status_aborts_iteration Cycles.no_parse _ 429 None
           "BTCUSDT" 100%float 1000%float).
  - reflexivity.
  - discriminate.
  - apply list_elem_of_In. cbn. auto.
  - vm_compute. reflexivity.
  - vm_compute. reflexivity.
  - vm_compute. reflexivity.
Defined.



(** X18: every record that is posted belongs to a symbol whose start row
    was saved in the same iteration, and that row holds the previous price
    and the previous open interest the record was computed from. *)
Theorem posted_record_has_a_start_row
    (float_of_str : string → option float) (e : env) (url : option string)
    (es : list embed) (r : embed) :
  Post url es ∈ main_iteration float_of_str e → r ∈ es →
  ∃ data row,
    SaveCsv data (now e) ∈ main_iteration float_of_str e ∧ row ∈ data ∧
    row_symbol row = title r ∧ row_phase row = "start" ∧
    prev_prices_of float_of_str e !! title r = Some (row_price row) ∧
    prev_oi_of float_of_str e !! title r = Some (Some (row_oi row)) ∧
    embed_oi_chg r = change_pct (row_oi row) (default 0%float
                       (dict_get (curr_oi_of float_of_str e) (title r))).
Proof.
  intros H Hr. apply post_inv in H as (rows & embeds & Hrows & Hd & _ & -> & -> & Hshape).
  apply subseteq_take in Hr.
  destruct (detect_records _ _ _ _ _ _ _ _ Hd Hr) as [Hin Ha].
  pose proof (anomaly_of_passes _ _ _ _ _ _ _ Ha) as Hpass.
  apply anomaly_of_fields in Ha
    as (p & c & o & o' & Hp & Hc & Ho & Ho' & Eoi & _).
  assert (float_truthy o = true) as Ht.
  { destruct Hpass as (_ & _ & Ht & _). by rewrite Ho in Ht. }
  destruct (funding_rates_of float_of_str e) as [fr|] eqn:Hfr.
  2:{ rewrite (data_start_no_dict _ _ _ _ p o Hin Hp Ho Ht) in Hrows. discriminate. }
  rewrite data_start_dict in Hrows. injection Hrows as <-.
  exists (omap (start_row_of (prev_prices_of float_of_str e)
                  (prev_oi_of float_of_str e) fr) (universe e)),
         (Row (title r) p o (default 0%float (fr !! title r)) "start").
  split; [rewrite Hshape; by left|]. split.
  - apply list_elem_of_omap. exists (title r). split; [exact Hin|].
    unfold start_row_of. by rewrite Hp, Ho, Ht.
  - cbn. repeat split; try done.
    + unfold dict_get in Ho. by destruct (prev_oi_of float_of_str e !! title r) as [[?|]|];
        cbn in Ho; simplify_eq.
    + by rewrite Ho'.
Qed.

Lemma posted_record_has_a_start_row_witness :
  ∃ data row,
    SaveCsv data (now Cycles.ordinary) ∈ main_iteration Cycles.no_parse Cycles.ordinary ∧
    row ∈ data ∧ row_symbol row = title Scenario.btc ∧ row_phase row = "start" ∧
    prev_prices_of Cycles.no_parse Cycles.ordinary !! title Scenario.btc
      = Some (row_price row) ∧
    prev_oi_of Cycles.no_parse Cycles.ordinary !! title Scenario.btc
      = Some (Some (row_oi row)) ∧
    embed_oi_chg Scenario.btc =
      change_pct (row_oi row)
        (default 0%float (dict_get (curr_oi_of Cycles.no_parse Cycles.ordinary)
                            (title Scenario.btc))).
Proof.
  apply (posted_record_has_a_start_row Cycles.no_parse Cycles.ordinary None
           [Scenario.btc] Scenario.btc).
  - vm_compute. apply list_elem_of_In. cbn. auto.
  - apply list_elem_of_In. cbn. auto.
Defined.

(** ** The history file over many iterations *)

Lemma replay_app t1 t2 file : replay (t1 ++ t2) file = replay t2 (replay t1 file).
Proof. unfold replay. apply fold_left_app. Qed.

(** What one iteration does to the file: nothing, or one [save_to_csv] of
    the start rows. *)
Lemma replay_iteration fos e file :
  replay (main_iteration fos e) file = file ∨
  ∃ rows,
    data_start (universe e) (prev_prices_of fos e) (prev_oi_of fos e)
      (funding_rates_of fos e) = Ok rows ∧
    (universe e = [] → rows = []) ∧
    replay (main_iteration fos e) file = Some (save_to_csv_on file rows (now e)).
Proof.
  rewrite main_iteration_cases.
  destruct (data_start _ _ _ _) as [rows|ex] eqn:Hrows; [|by left].
  destruct (csv_ok e); [|by left]. right. exists rows. split; [reflexivity|]. split.
  { intros Hu. rewrite Hu in Hrows. by injection Hrows as <-. }
  destruct (detect _ _ _ _ _ _) as [[|r embeds]|ex]; [| destruct (post_ok e) |];
    reflexivity.
Qed.

Lemma start_rows_lines pp po funding symbols rows ts :
  data_start symbols pp po funding = Ok rows →
  Forall is_start_row (map (λ r, Data r ts) rows).
Proof.
  intros H. apply Forall_forall. intros l Hl. apply list_elem_of_fmap in Hl as (r & -> & Hr).
  exists r, ts. split; [reflexivity|]. by eapply data_start_phase.
Qed.

Lemma replay_main_existing fos cycles old :
  ∃ new, replay (main fos cycles) (Some old) = Some (old ++ new) ∧
         Forall is_start_row new.
Proof.
  revert old. induction cycles as [|e cycles IH]; intros old.
  - exists []. split; [by rewrite app_nil_r | constructor].
  - unfold main. cbn [map concat]. fold (main fos cycles). rewrite replay_app.
    destruct (replay_iteration fos e (Some old)) as [-> | (rows & Hrows & _ & ->)].
    + apply IH.
    + cbn [save_to_csv_on]. destruct (IH (old ++ map (λ r, Data r (now e)) rows))
        as (new & -> & Hnew).
      exists (map (λ r, Data r (now e)) rows ++ new). split; [by rewrite app_assoc|].
      apply Forall_app. split; [by eapply start_rows_lines | exact Hnew].
Qed.

(** X19: the history file is append-only over any number of iterations:
    the lines of an existing file are left as they are, no header is ever
    added to it, and every line appended is a row of a start snapshot. *)
Theorem history_file_is_append_only
    (float_of_str : string → option float) (cycles : list env) (old : list line) :
  ∃ new, replay (main float_of_str cycles) (Some old) = Some (old ++ new) ∧
         Forall is_start_row new ∧
         List.filter is_header new = [].
Proof.
  destruct (replay_main_existing float_of_str cycles old) as (new & Hnew & Hrows).
  exists new. split; [exact Hnew|]. split; [exact Hrows|].
  clear Hnew. induction Hrows as [|l new (r & ts & -> & _) _ IH]; [reflexivity | exact IH].
Qed.

(** X20: on a file that does not exist yet, iterations either leave it
    absent (none of them saved) or create it with exactly one header line,
    at the top, followed only by rows of start snapshots. *)
Theorem history_file_has_one_header
    (float_of_str : string → option float) (cycles : list env) :
  replay (main float_of_str cycles) None = None ∨
  ∃ cols new, replay (main float_of_str cycles) None = Some (Header cols :: new) ∧
              Forall is_start_row new.
Proof.
  induction cycles as [|e cycles IH]; [by left|].
  unfold main. cbn [map concat]. fold (main float_of_str cycles). rewrite replay_app.
  destruct (replay_iteration float_of_str e None) as [-> | (rows & Hrows & _ & ->)].
  - exact IH.
  - right. cbn [save_to_csv_on].
    destruct (replay_main_existing float_of_str cycles
                (Header (columns_of rows) :: map (λ r, Data r (now e)) rows))
      as (new & -> & Hnew).
    exists (columns_of rows), (map (λ r, Data r (now e)) rows ++ new).
    split; [reflexivity|]. apply Forall_app. split; [by eapply start_rows_lines | exact Hnew].
Qed.

(** X21: when the first iteration on a fresh file has an empty universe
    and its write goes through, the file is created with a header that
    names the single column timestamp, and that header stays although all
    rows appended later have six cells. *)
Theorem empty_first_snapshot_fixes_a_one_column_header
    (float_of_str : string → option float) (e : env) (cycles : list env) :
  universe e = [] → csv_ok e = true →
  ∃ new, replay (main float_of_str (e :: cycles)) None
         = Some (Header ["timestamp"] :: new) ∧
         Forall is_start_row new.
Proof.
  intros Hu Hcsv. unfold main. cbn [map concat]. fold (main float_of_str cycles).
  rewrite replay_app, main_iteration_cases, Hu, Hcsv. cbn.
  destruct (replay_main_existing float_of_str cycles [Header ["timestamp"]])
    as (new & Hnew & Hrows).
  exists new. split; [exact Hnew | exact Hrows].
Qed.

Lemma empty_first_snapshot_fixes_a_one_column_header_witness :
  ∃ new,
    replay (main Cycles.no_parse
              [{| universe := []; prices_start := NetworkError;
                  oi_start := λ _, NetworkError; funding := NetworkError;
                  now := "2026/01/01 07:59:00"; csv_ok := true;
                  prices_end := NetworkError; oi_end := λ _, NetworkError;
                  webhook_url := None; post_ok := true |};
               Cycles.ordinary]) None
    = Some (Header ["timestamp"] :: new) ∧ Forall is_start_row new.
Proof.
  apply empty_first_snapshot_fixes_a_one_column_header; reflexivity.
Defined.
